(** * LongLLM: the S3-triggered summarisation handler (lambda_function.py)

    A shallow embedding of [lambda_handler], [initiate_runpod_job] and
    [poll_runpod_job].  The external services (S3 and the RunPod HTTP API)
    are an environment record; every call the code makes to them is
    appended to a history, and exceptions are threaded through a small
    state-and-error monad. *)

From Stdlib Require Import ZArith Lia Ascii.
From stdpp Require Import base strings list gmap pretty.

Open Scope Z_scope.

Set Warnings "-register-all".

(** ** Python values *)

(** What [json.loads] / [response.json()] can produce, which is also what
    the Lambda runtime passes as [event].  A string is a Rocq [string], one
    [ascii] per character.  A float is carried as the literal [repr] prints
    for it (which determines the float); the code never computes with one. *)
Inductive value : Type :=
| JNull
| JBool (b : bool)
| JInt (n : Z)
| JFloat (literal : string)
| JStr (s : string)
| JArr (items : list value)
| JObj (fields : list (string * value)).

Definition bytes : Type := list Byte.byte.

(** The exception classes the handler can meet.  All of them derive from
    [Exception]; [RequestException] stands for [requests.exceptions.RequestException]
    and its subclasses (connection errors, timeouts, [HTTPError], and the
    [JSONDecodeError] of [response.json()]), [ServiceError] for whatever the
    storage client raises.  [TimeoutError] is the builtin, not a
    [RequestException]. *)
Inductive exc_class : Type :=
| KeyError | IndexError | TypeError | AttributeError | ValueError
| TimeoutError | UnicodeError | RequestException | ServiceError.

(** An exception with the text [str(e)] gives for it. *)
Record exn : Type := Exn { exn_class : exc_class; exn_str : string }.

Definition is_RequestException (e : exn) : bool :=
  match exn_class e with RequestException => true | _ => false end.

(** ** The pieces of the Python runtime the code calls *)

Definition ascii_char (c : ascii) : bool := (N_of_ascii c <? 128)%N.

(** A text of ASCII characters only. *)
Fixpoint is_ascii (s : string) : bool :=
  match s with
  | EmptyString => true
  | String c s' => ascii_char c && is_ascii s'
  end.

(** A call that returns rather than raises. *)
Definition succeeds {A} (r : exn + A) : bool :=
  match r with inl _ => false | inr _ => true end.

(** Library functions whose results the handler only passes along. *)
Class PyRuntime : Type := {
  (** [json.dumps] *)
  json_dumps : value -> string;
  (** [repr] *)
  py_repr : value -> string;
  (** [urllib.parse.unquote_plus] on a [str] *)
  unquote_plus : string -> string;
  (** [bytes.decode('utf-8')], which can raise [UnicodeDecodeError] *)
  utf8_decode : bytes -> exn + string;
  (** [str.encode('utf-8')], which can raise [UnicodeEncodeError] (lone
      surrogates) *)
  utf8_encode : string -> exn + bytes;
  (** What the handler relies on: ASCII text can be encoded; a text can be
      encoded exactly when its parts can; [repr] escapes what cannot be
      encoded; the message of a [UnicodeDecodeError] can be encoded. *)
  encode_ascii : forall s, is_ascii s = true -> succeeds (utf8_encode s) = true;
  encode_append : forall a b,
    succeeds (utf8_encode (a +:+ b))
    = succeeds (utf8_encode a) && succeeds (utf8_encode b);
  encode_repr : forall v, succeeds (utf8_encode (py_repr v)) = true;
  encode_decode_error : forall b e,
    utf8_decode b = inl e -> succeeds (utf8_encode (exn_str e)) = true
}.

(** Python's [type(v).__name__]. *)
Definition type_name (v : value) : string :=
  match v with
  | JNull => "NoneType"
  | JBool _ => "bool"
  | JInt _ => "int"
  | JFloat _ => "float"
  | JStr _ => "str"
  | JArr _ => "list"
  | JObj _ => "dict"
  end.

Definition is_str (v : value) : bool := match v with JStr _ => true | _ => false end.
Definition is_dict (v : value) : bool := match v with JObj _ => true | _ => false end.
Definition is_list (v : value) : bool := match v with JArr _ => true | _ => false end.

(** [v == s] for a string literal [s]: only an equal [str] compares equal. *)
Definition eq_str (v : value) (s : string) : bool :=
  match v with JStr t => String.eqb t s | _ => false end.

(** Dictionary lookup. *)
Fixpoint lookup_field (k : string) (fields : list (string * value)) : option value :=
  match fields with
  | [] => None
  | (k', v) :: rest => if String.eqb k k' then Some v else lookup_field k rest
  end.

Definition has_field (k : string) (fields : list (string * value)) : bool :=
  match lookup_field k fields with Some _ => true | None => false end.

(** [isinstance(v, list) and len(v) > 0] *)
Definition nonempty_list (v : value) : bool :=
  match v with JArr (_ :: _) => true | _ => false end.

(** ** Strings *)

Fixpoint starts_with (p s : string) : bool :=
  match p, s with
  | EmptyString, _ => true
  | String a p', String b s' => Ascii.eqb a b && starts_with p' s'
  | String _ _, EmptyString => false
  end.

(** [sub in s] on two strings. *)
Fixpoint str_in (sub s : string) : bool :=
  starts_with sub s ||
  match s with
  | EmptyString => false
  | String _ s' => str_in sub s'
  end.

(** [s.replace(old, new)]: every occurrence, left to right, not
    overlapping.  [skip] counts the characters of a matched occurrence
    still to be passed over. *)
Fixpoint replace_from (old new : string) (skip : nat) (s : string) : string :=
  match s with
  | EmptyString => EmptyString
  | String c s' =>
      match skip with
      | S k => replace_from old new k s'
      | O =>
          if starts_with old s
          then new +:+ replace_from old new (pred (String.length old)) s'
          else String c (replace_from old new O s')
      end
  end.

(** With an empty [old], Python puts [new] before every character and at
    the end. *)
Fixpoint intersperse_new (new s : string) : string :=
  match s with
  | EmptyString => new
  | String c s' => new +:+ String c (intersperse_new new s')
  end.

Definition replace (old new s : string) : string :=
  match old with
  | EmptyString => intersperse_new new s
  | _ => replace_from old new O s
  end.

(** [os.path.basename] (posixpath): what follows the last slash.  [cur] is
    the text after the last slash met so far. *)
Fixpoint after_last_slash (p cur : string) : string :=
  match p with
  | EmptyString => cur
  | String c p' =>
      if Ascii.eqb c "/"%char then after_last_slash p' p' else after_last_slash p' cur
  end.

Definition basename (p : string) : string := after_last_slash p p.



(** ** The outside world *)

(** What [requests.get] / [requests.post], followed by
    [response.raise_for_status()] and [response.json()], comes to: a
    [RequestException] with its text, or the decoded body. *)
Inductive http_outcome : Type :=
| HttpError (msg : string)
| HttpJson (body : value).

Definition headers : Type := list (string * string).

(** The services the handler talks to.  [http_get] is given the number of
    status requests already made, so that successive polls can differ.
    The storage client words its errors in text that can be encoded (the
    last two fields); what the inference API sends is not so restricted. *)
Record Env `{PyRuntime} : Type := {
  s3_get_object : value -> string -> exn + bytes;
  s3_put_object : value -> string -> bytes -> string -> option exn;
  http_post : string -> headers -> value -> http_outcome;
  http_get : nat -> string -> headers -> http_outcome;
  s3_get_error_text : forall bucket key e,
    s3_get_object bucket key = inl e -> succeeds (utf8_encode (exn_str e)) = true;
  s3_put_error_text : forall bucket key body content_type e,
    s3_put_object bucket key body content_type = Some e ->
    succeeds (utf8_encode (exn_str e)) = true
}.

(** One entry per call that leaves the process. *)
Inductive io_event : Type :=
| S3Get (bucket : value) (key : string)
| S3Put (bucket : value) (key : string) (body : bytes) (content_type : string)
| HttpPost (url : string) (hdrs : headers) (json : value) (timeout : Z)
| HttpGet (url : string) (hdrs : headers) (timeout : Z)
| Sleep (seconds : Z).

Definition history : Type := list io_event.

Definition is_get (ev : io_event) : bool :=
  match ev with HttpGet _ _ _ => true | _ => false end.
Definition is_sleep (ev : io_event) : bool :=
  match ev with Sleep _ => true | _ => false end.


Fixpoint count (p : io_event -> bool) (h : history) : nat :=
  match h with
  | [] => O
  | ev :: h' => ((if p ev then 1 else 0) + count p h')%nat
  end.

(** Seconds spent in [time.sleep]. *)
Fixpoint slept (h : history) : Z :=
  match h with
  | [] => 0
  | Sleep s :: h' => s + slept h'
  | _ :: h' => slept h'
  end.

(** ** Computations: a history threaded through, and exceptions *)

Definition M (A : Type) : Type := history -> (exn + A) * history.

Definition ret {A} (a : A) : M A := fun h => (inr a, h).

Definition raise {A} (e : exn) : M A := fun h => (inl e, h).

Definition bind {A B} (c : M A) (k : A -> M B) : M B :=
  fun h =>
    match c h with
    | (inl e, h') => (inl e, h')
    | (inr a, h') => k a h'
    end.

(** [try: c  except <class> as e: handler e], the clause catching the
    exceptions [catches] accepts. *)
Definition try_except {A} (c : M A) (catches : exn -> bool) (handler : exn -> M A) : M A :=
  fun h =>
    match c h with
    | (inl e, h') => if catches e then handler e h' else (inl e, h')
    | (inr a, h') => (inr a, h')
    end.

Definition emit (ev : io_event) : M unit := fun h => (inr tt, h ++ [ev]).

Definition lift_result {A} (r : exn + A) : M A :=
  match r with inl e => raise e | inr a => ret a end.

Notation "'let!' x ':=' c 'in' k" := (bind c (fun x => k))
  (at level 10, x name, c at level 100, k at level 200).
Notation "c ';;;' k" := (bind c (fun _ => k))
  (at level 100, k at level 200, right associativity).

(** ** Python operations on values *)

Section Operations.
Context {rt : PyRuntime}.

(** [str(v)] *)
Definition py_str (v : value) : string :=
  match v with JStr s => s | _ => py_repr v end.

(** The interpreter's own errors, with the texts CPython 3.12 gives them. *)
Definition not_subscriptable (v : value) : exn :=
  Exn TypeError ("'" +:+ type_name v +:+ "' object is not subscriptable").

Definition no_attribute (v : value) (attr : string) : exn :=
  Exn AttributeError ("'" +:+ type_name v +:+ "' object has no attribute '" +:+ attr +:+ "'").

(** [v[k]] with a string literal [k] *)
Definition getitem (v : value) (k : string) : M value :=
  match v with
  | JObj fields =>
      match lookup_field k fields with
      | Some x => ret x
      | None => raise (Exn KeyError (py_repr (JStr k)))
      end
  | JArr _ => raise (Exn TypeError "list indices must be integers or slices, not str")
  | JStr _ => raise (Exn TypeError "string indices must be integers, not 'str'")
  | _ => raise (not_subscriptable v)
  end.

(** [v[0]] *)
Definition getitem0 (v : value) : M value :=
  match v with
  | JArr (x :: _) => ret x
  | JArr [] => raise (Exn IndexError "list index out of range")
  | JStr (String c _) => ret (JStr (String c EmptyString))
  | JStr EmptyString => raise (Exn IndexError "string index out of range")
  | JObj _ => raise (Exn KeyError (py_repr (JInt 0)))
  | _ => raise (not_subscriptable v)
  end.

(** [k in v] with a string literal [k] *)
Definition py_in (k : string) (v : value) : M bool :=
  match v with
  | JObj fields => ret (has_field k fields)
  | JArr items => ret (existsb (fun x => eq_str x k) items)
  | JStr s => ret (str_in k s)
  | _ => raise (Exn TypeError ("argument of type '" +:+ type_name v +:+ "' is not iterable"))
  end.

(** [v.get(k, default)]; only a [dict] has the method *)
Definition get_method (v : value) (k : string) (default : value) : M value :=
  match v with
  | JObj fields => ret (from_option id default (lookup_field k fields))
  | _ => raise (no_attribute v "get")
  end.

(** [unquote_plus(v)], which starts with [v.replace('+', ' ')] *)
Definition py_unquote_plus (v : value) : M string :=
  match v with
  | JStr s => ret (unquote_plus s)
  | _ => raise (no_attribute v "replace")
  end.

(** [v.encode('utf-8')] *)
Definition encode_method (v : value) : M bytes :=
  match v with
  | JStr s => lift_result (utf8_encode s)
  | _ => raise (no_attribute v "encode")
  end.

(** Truth value of [os.environ.get(...)]: [None] and [''] are false. *)
Definition truthy (o : option string) : bool :=
  match o with
  | Some s => negb (String.eqb s EmptyString)
  | None => false
  end.

(** An optional string inside an f-string. *)
Definition fmt (o : option string) : string :=
  match o with Some s => s | None => "None" end.
End Operations.

(** ** lambda_function.py *)

Definition newline : string := String "010"%char EmptyString.

Section Lambda.
Context {rt : PyRuntime}.
(** [os.environ] *)
Variable environ : gmap string string.
Variable env : Env.

(** Configuration from environment variables *)
Definition RUNPOD_API_KEY : option string := environ !! "RUNPOD_API_KEY".
Definition RUNPOD_ENDPOINT_URL : option string := environ !! "RUNPOD_ENDPOINT_URL".
Definition OUTPUT_BUCKET : string := default EmptyString (environ !! "OUTPUT_BUCKET").
Definition OUTPUT_PREFIX : string := default "summaries/" (environ !! "OUTPUT_PREFIX").

(** Constants *)
Definition MAX_TOKENS : Z := 16000.
Definition POLL_INTERVAL : Z := 5.
Definition MAX_POLLING_ATTEMPTS : nat := 60.

(** *** Calls to the services; each is recorded, then answered by [env] *)

(** [s3_client.get_object(Bucket, Key)['Body'].read()] *)
Definition s3_client_get_object (bucket : value) (key : string) : M bytes :=
  emit (S3Get bucket key) ;;;
  lift_result (s3_get_object env bucket key).

Definition s3_client_put_object (bucket : value) (key : string) (body : bytes)
    (content_type : string) : M unit :=
  emit (S3Put bucket key body content_type) ;;;
  match s3_put_object env bucket key body content_type with
  | Some e => raise e
  | None => ret tt
  end.

Definition of_outcome (o : http_outcome) : M value :=
  match o with
  | HttpError msg => raise (Exn RequestException msg)
  | HttpJson body => ret body
  end.

(** [requests.post(url, headers=, json=, timeout=)], [raise_for_status()], [json()] *)
Definition requests_post (url : string) (hdrs : headers) (json : value) (timeout : Z)
    : M value :=
  emit (HttpPost url hdrs json timeout) ;;;
  of_outcome (http_post env url hdrs json).

(** [requests.get(url, headers=, timeout=)], [raise_for_status()], [json()] *)
Definition requests_get (url : string) (hdrs : headers) (timeout : Z) : M value :=
  fun h =>
    (emit (HttpGet url hdrs timeout) ;;;
     of_outcome (http_get env (count is_get h) url hdrs)) h.

Definition time_sleep (seconds : Z) : M unit := emit (Sleep seconds).

(** [print(text)]: standard output encodes the text as UTF-8, and what
    the codec raises, [print] raises.

    Of the prints of the file only the one in the [except] clause of the
    handler is embedded.  It shows the text of whatever exception reached
    the clause, and that text can hold what the remote job sent (the error
    of a failed job).  The others show the event as JSON, lengths, fixed
    texts, the bucket and the key, the job id and the status the platform
    gives, and the messages of the storage client and of [requests]; they
    are taken to succeed and are left out. *)
Definition print (text : string) : M unit :=
  match utf8_encode text with
  | inl e => raise e
  | inr _ => ret tt
  end.

(** *** initiate_runpod_job *)

Definition SUMMARY_INSTRUCTION : string :=
  "Please provide a comprehensive summary of the following transcription in approximately 4000 words. Focus on capturing the main points, key discussions, and important conclusions:"
  +:+ newline +:+ newline.

Definition run_payload (text_data : string) : value :=
  JObj [("input",
         JObj [("prompt", JStr (SUMMARY_INSTRUCTION +:+ text_data));
               ("max_new_tokens", JInt MAX_TOKENS);
               ("temperature", JFloat "0.7");
               ("top_p", JFloat "0.9")])].

Definition initiate_runpod_job (text_data : string) : M value :=
  if negb (truthy RUNPOD_API_KEY) || negb (truthy RUNPOD_ENDPOINT_URL)
  then raise (Exn ValueError "RunPod API key or endpoint URL not configured")
  else
    let hdrs := [("Authorization", "Bearer " +:+ fmt RUNPOD_API_KEY);
                 ("Content-Type", "application/json")] in
    let payload := run_payload text_data in
    try_except
      (let! result := requests_post (fmt RUNPOD_ENDPOINT_URL +:+ "/run") hdrs payload 30 in
       let! has_id := py_in "id" result in
       if negb has_id
       then raise (Exn ValueError
                     ("RunPod API did not return a job ID: " +:+ py_str result))
       else
         (* the f-string of the print evaluates result['id'] *)
         let! _ := getitem result "id" in
         ret result)
      is_RequestException
      (fun e => raise e).

(** *** poll_runpod_job *)

(** One turn of the [for] loop: [Some v] when the body returns [v],
    [None] when it runs to its end and the loop goes on. *)
Definition poll_attempt (endpoint : string) (hdrs : headers) : M (option value) :=
  try_except
    (let! status_data := requests_get endpoint hdrs 10 in
     (* the f-string of the print evaluates status_data.get('status') *)
     let! _ := get_method status_data "status" JNull in
     let! status := get_method status_data "status" JNull in
     if eq_str status "COMPLETED" then
       let! has_output := py_in "output" status_data in
       if has_output then
         let! output := getitem status_data "output" in
         if is_str output then
           ret (Some output)
         else
           let! dict_with_text :=
             (if is_dict output then py_in "text" output else ret false) in
           if dict_with_text then
             let! text := getitem output "text" in
             ret (Some text)
           else if nonempty_list output then
             let! first := getitem0 output in
             let! text := get_method first "text" (JStr (json_dumps output)) in
             ret (Some text)
           else
             ret (Some (JStr (json_dumps output)))
       else
         raise (Exn ValueError
                  ("No output found in completed job: " +:+ py_str status_data))
     else
       let! status := get_method status_data "status" JNull in
       if eq_str status "FAILED" || eq_str status "CANCELLED" then
         let! status := get_method status_data "status" JNull in
         let error_msg := "RunPod job failed with status: " +:+ py_str status in
         let! has_error := py_in "error" status_data in
         let! error_msg :=
           (if has_error then
              let! err := getitem status_data "error" in
              ret (error_msg +:+ ", error: " +:+ py_str err)
            else ret error_msg) in
         raise (Exn ValueError error_msg)
       else
         time_sleep POLL_INTERVAL ;;;
         ret None)
    is_RequestException
    (fun _ => time_sleep POLL_INTERVAL ;;; ret None).

(** [for attempt in range(attempts)]: [None] when the range is used up. *)
Fixpoint poll_loop (attempts : nat) (endpoint : string) (hdrs : headers)
    : M (option value) :=
  match attempts with
  | O => ret None
  | S n =>
      let! r := poll_attempt endpoint hdrs in
      match r with
      | Some v => ret (Some v)
      | None => poll_loop n endpoint hdrs
      end
  end.

Definition timeout_message (job_id : value) : string :=
  "Timed out waiting for RunPod job " +:+ py_str job_id +:+ " after "
  +:+ pretty MAX_POLLING_ATTEMPTS +:+ " polling attempts".

Definition status_endpoint (job_id : value) : string :=
  fmt RUNPOD_ENDPOINT_URL +:+ "/status/" +:+ py_str job_id.

Definition poll_headers : headers :=
  [("Authorization", "Bearer " +:+ fmt RUNPOD_API_KEY)].

Definition poll_runpod_job (job_id : value) : M value :=
  let! r := poll_loop MAX_POLLING_ATTEMPTS (status_endpoint job_id) poll_headers in
  match r with
  | Some v => ret v
  | None => raise (Exn TimeoutError (timeout_message job_id))
  end.

(** *** lambda_handler *)

Definition output_key_of (key : string) : string :=
  OUTPUT_PREFIX +:+ replace ".txt" "_summary.txt" (basename key).

Definition output_bucket_of (bucket : value) : value :=
  if negb (String.eqb OUTPUT_BUCKET EmptyString) then JStr OUTPUT_BUCKET else bucket.

Definition success_result (output_bucket : value) (output_key : string) : value :=
  JObj [("statusCode", JInt 200);
        ("body", JStr (json_dumps (JObj
           [("message", JStr "Summarization completed successfully");
            ("summary_location",
             JStr ("s3://" +:+ py_str output_bucket +:+ "/" +:+ output_key))])))].

Definition failure_result (e : exn) : value :=
  JObj [("statusCode", JInt 500);
        ("body", JStr (json_dumps (JObj [("error", JStr (exn_str e))])))].

(** 1. Parse the S3 event notification: the two subscript chains of
    the handler, each starting again from [event]. *)
Definition parse_event (event : value) : M (value * string) :=
  let! records := getitem event "Records" in
  let! record := getitem0 records in
  let! s3 := getitem record "s3" in
  let! bucket_obj := getitem s3 "bucket" in
  let! bucket := getitem bucket_obj "name" in
  let! records := getitem event "Records" in
  let! record := getitem0 records in
  let! s3 := getitem record "s3" in
  let! object := getitem s3 "object" in
  let! quoted := getitem object "key" in
  let! key := py_unquote_plus quoted in
  ret (bucket, key).

(** 2. Retrieve the transcription file content; the [except] clause
    logs and re-raises. *)
Definition retrieve (bucket : value) (key : string) : M string :=
  try_except
    (let! body := s3_client_get_object bucket key in
     lift_result (utf8_decode body))
    (fun _ => true)
    (fun e => raise e).

(** The body of the handler's [try].  ([json.dumps(event)] in the first
    print cannot fail on a decoded JSON document.) *)
Definition pipeline (event : value) : M value :=
  let! parsed := parse_event event in
  let bucket := fst parsed in
  let key := snd parsed in
  let output_bucket := output_bucket_of bucket in
  let! text_data := retrieve bucket key in
  (* 3. Send the transcription to RunPod for summarization *)
  let! run_response := initiate_runpod_job text_data in
  (* 4. Poll for job completion *)
  let! job_id := getitem run_response "id" in
  let! summary := poll_runpod_job job_id in
  (* 5. Store the summary in S3 *)
  let output_key := output_key_of key in
  let! body := encode_method summary in
  s3_client_put_object output_bucket output_key body "text/plain" ;;;
  ret (success_result output_bucket output_key).

Definition lambda_handler (event context : value) : M value :=
  try_except (pipeline event) (fun _ => true)
    (fun e =>
       print ("Error in lambda_handler: " +:+ exn_str e) ;;;
       ret (failure_result e)).
End Lambda.

(** ** A runtime and a world to run the handler in

    The library functions on ASCII text, which is all the examples use;
    the theorems hold for every runtime.  A character that is not ASCII
    is one this runtime's codec refuses, as UTF-8 refuses an unpaired
    surrogate, and one its [repr] escapes. *)

Definition dquote : ascii := "034"%char.
Definition squote : ascii := "039"%char.
Definition backslash : ascii := "092"%char.

Definition char (c : ascii) : string := String c EmptyString.

Definition escape_char (quote c : ascii) : string :=
  if Ascii.eqb c quote then String backslash (char quote)
  else if Ascii.eqb c backslash then String backslash (char backslash)
  else if Ascii.eqb c "010"%char then String backslash "n"
  else char c.

Fixpoint escape (quote : ascii) (s : string) : string :=
  match s with
  | EmptyString => EmptyString
  | String c s' => escape_char quote c +:+ escape quote s'
  end.

Definition quote_json (s : string) : string :=
  String dquote (escape dquote s +:+ char dquote).

Fixpoint ascii_json_dumps (v : value) : string :=
  match v with
  | JNull => "null"
  | JBool true => "true"
  | JBool false => "false"
  | JInt n => pretty n
  | JFloat literal => literal
  | JStr s => quote_json s
  | JArr items =>
      "[" +:+
      (fix go (l : list value) : string :=
         match l with
         | [] => EmptyString
         | x :: l' =>
             ascii_json_dumps x +:+
             match l' with [] => EmptyString | _ => ", " +:+ go l' end
         end) items
      +:+ "]"
  | JObj fields =>
      "{" +:+
      (fix go (l : list (string * value)) : string :=
         match l with
         | [] => EmptyString
         | (k, x) :: l' =>
             quote_json k +:+ ": " +:+ ascii_json_dumps x +:+
             match l' with [] => EmptyString | _ => ", " +:+ go l' end
         end) fields
      +:+ "}"
  end.

Fixpoint has_char (c : ascii) (s : string) : bool :=
  match s with
  | EmptyString => false
  | String c' s' => Ascii.eqb c c' || has_char c s'
  end.

(** [repr] of a string picks double quotes when the text has a single
    quote and no double quote. *)
Definition quote_repr (s : string) : string :=
  if has_char squote s && negb (has_char dquote s)
  then String dquote (escape dquote s +:+ char dquote)
  else String squote (escape squote s +:+ char squote).

Fixpoint repr_text (v : value) : string :=
  match v with
  | JNull => "None"
  | JBool true => "True"
  | JBool false => "False"
  | JInt n => pretty n
  | JFloat literal => literal
  | JStr s => quote_repr s
  | JArr items =>
      "[" +:+
      (fix go (l : list value) : string :=
         match l with
         | [] => EmptyString
         | x :: l' =>
             repr_text x +:+
             match l' with [] => EmptyString | _ => ", " +:+ go l' end
         end) items
      +:+ "]"
  | JObj fields =>
      "{" +:+
      (fix go (l : list (string * value)) : string :=
         match l with
         | [] => EmptyString
         | (k, x) :: l' =>
             quote_repr k +:+ ": " +:+ repr_text x +:+
             match l' with [] => EmptyString | _ => ", " +:+ go l' end
         end) fields
      +:+ "}"
  end.

Definition hex_char (n : N) : ascii :=
  ascii_of_N (if (n mod 16 <? 10)%N then 48 + n mod 16 else 87 + n mod 16)%N.

Definition escape_non_ascii_char (c : ascii) : string :=
  if ascii_char c then char c
  else String backslash
         (String "x" (String (hex_char (N_of_ascii c / 16)) (char (hex_char (N_of_ascii c))))).

Fixpoint escape_non_ascii (s : string) : string :=
  match s with
  | EmptyString => EmptyString
  | String c s' => escape_non_ascii_char c +:+ escape_non_ascii s'
  end.

Definition ascii_repr (v : value) : string := escape_non_ascii (repr_text v).

Definition hex_digit (c : ascii) : option N :=
  let n := N_of_ascii c in
  if ((48 <=? n) && (n <=? 57))%N then Some (n - 48)%N
  else if ((97 <=? n) && (n <=? 102))%N then Some (n - 87)%N
  else if ((65 <=? n) && (n <=? 70))%N then Some (n - 55)%N
  else None.

(** [%XX] escapes below 128, and [+] for a space. *)
Fixpoint ascii_unquote_plus (s : string) : string :=
  match s with
  | EmptyString => EmptyString
  | String c rest =>
      if Ascii.eqb c "+"%char then String " "%char (ascii_unquote_plus rest)
      else
        match rest with
        | String a (String b s') =>
            match Ascii.eqb c "%"%char, hex_digit a, hex_digit b with
            | true, Some x, Some y =>
                if (x <? 8)%N
                then String (ascii_of_N (16 * x + y)) (ascii_unquote_plus s')
                else String c (ascii_unquote_plus rest)
            | _, _, _ => String c (ascii_unquote_plus rest)
            end
        | _ => String c (ascii_unquote_plus rest)
        end
  end.

Fixpoint ascii_decode (b : bytes) : exn + string :=
  match b with
  | [] => inr EmptyString
  | x :: b' =>
      if (Byte.to_N x <? 128)%N then
        match ascii_decode b' with
        | inr s => inr (String (ascii_of_byte x) s)
        | inl e => inl e
        end
      else inl (Exn UnicodeError "'utf-8' codec can't decode byte")
  end.

Fixpoint ascii_encode (s : string) : exn + bytes :=
  match s with
  | EmptyString => inr []
  | String c s' =>
      if (N_of_ascii c <? 128)%N then
        match ascii_encode s' with
        | inr b => inr (byte_of_ascii c :: b)
        | inl e => inl e
        end
      else inl (Exn UnicodeError "'utf-8' codec can't encode character")
  end.

(** This codec encodes exactly the ASCII texts. *)
Definition ascii_encode_succeeds (s : string) : succeeds (ascii_encode s) = is_ascii s.
Proof.
  induction s as [|c s IH]; [reflexivity|].
  cbn [ascii_encode is_ascii]. unfold ascii_char.
  destruct (N_of_ascii c <? 128)%N; [|reflexivity].
  rewrite <- IH. destruct (ascii_encode s); reflexivity.
Qed.

Definition is_ascii_append (a b : string) : is_ascii (a +:+ b) = is_ascii a && is_ascii b.
Proof.
  induction a as [|c a IH]; [reflexivity|].
  change (String c a +:+ b) with (String c (a +:+ b)).
  cbn [is_ascii]. now rewrite IH, andb_assoc.
Qed.

Definition hex_char_ascii (n : N) : ascii_char (hex_char n) = true.
Proof.
  unfold ascii_char, hex_char.
  assert (n mod 16 < 16)%N by (apply N.mod_lt; discriminate).
  destruct (n mod 16 <? 10)%N eqn:Hd.
  - apply N.ltb_lt in Hd. rewrite N_ascii_embedding by lia. apply N.ltb_lt. lia.
  - rewrite N_ascii_embedding by lia. apply N.ltb_lt. lia.
Qed.

Definition escape_non_ascii_ascii (s : string) : is_ascii (escape_non_ascii s) = true.
Proof.
  induction s as [|c s IH]; [reflexivity|].
  cbn [escape_non_ascii]. rewrite is_ascii_append, IH, andb_true_r.
  unfold escape_non_ascii_char. destruct (ascii_char c) eqn:Hc.
  - cbn [char is_ascii]. now rewrite Hc.
  - cbn [char is_ascii]. now rewrite !hex_char_ascii.
Qed.

Definition ascii_decode_error (b : bytes) (e : exn) :
  ascii_decode b = inl e -> is_ascii (exn_str e) = true.
Proof.
  revert e. induction b as [|x b IH]; intros e; [discriminate|].
  cbn [ascii_decode]. destruct (Byte.to_N x <? 128)%N.
  - destruct (ascii_decode b) as [e'|s]; [|discriminate].
    intros [= <-]. now apply IH.
  - intros [= <-]. reflexivity.
Qed.

Definition ascii_runtime : PyRuntime := {|
  json_dumps := ascii_json_dumps;
  py_repr := ascii_repr;
  unquote_plus := ascii_unquote_plus;
  utf8_decode := ascii_decode;
  utf8_encode := ascii_encode;
  encode_ascii := fun s Hs => eq_trans (ascii_encode_succeeds s) Hs;
  encode_append := fun a b =>
    eq_trans (ascii_encode_succeeds (a +:+ b))
      (eq_trans (is_ascii_append a b)
         (f_equal2 andb (eq_sym (ascii_encode_succeeds a))
            (eq_sym (ascii_encode_succeeds b))));
  encode_repr := fun v =>
    eq_trans (ascii_encode_succeeds (ascii_repr v)) (escape_non_ascii_ascii (repr_text v));
  encode_decode_error := fun b e Hb =>
    eq_trans (ascii_encode_succeeds (exn_str e)) (ascii_decode_error b e Hb)
|}.

(** A world in which storage holds one ASCII object, the submission is
    accepted as job [job-1], and [polls] scripts the status requests. *)
Definition demo_env `{PyRuntime} (polls : nat -> http_outcome) : Env := {|
  s3_get_object := fun _ _ => inr (String.list_byte_of_string "meeting notes");
  s3_put_object := fun _ _ _ _ => None;
  http_post := fun _ _ _ => HttpJson (JObj [("id", JStr "job-1")]);
  http_get := fun n _ _ => polls n;
  s3_get_error_text := ltac:(cbn; intros; discriminate);
  s3_put_error_text := ltac:(cbn; intros; discriminate)
|}.

Definition demo_environ : gmap string string :=
  <["RUNPOD_API_KEY" := "secret"]>
    (<["RUNPOD_ENDPOINT_URL" := "https://api.runpod.ai/v2/ep"]> ∅).

Definition s3_record (bucket key : string) : value :=
  JObj [("s3", JObj [("bucket", JObj [("name", JStr bucket)]);
                     ("object", JObj [("key", JStr key)])])].

Definition demo_event : value :=
  JObj [("Records", JArr [s3_record "transcripts" "calls/call+1.txt"])].

Definition status_response (status : string) (rest : list (string * value)) : http_outcome :=
  HttpJson (JObj (("status", JStr status) :: rest)).

(** Two polls find the job running, the third finds it completed. *)
Definition demo_polls (n : nat) : http_outcome :=
  if (n <? 2)%nat then status_response "IN_PROGRESS" []
  else status_response "COMPLETED" [("output", JStr "a summary")].

(** ** What a status response says *)

(** [status_data.get('status')] *)
Definition status_of (fields : list (string * value)) : value :=
  from_option id JNull (lookup_field "status" fields).

Definition terminal (status : value) : bool :=
  eq_str status "COMPLETED" || eq_str status "FAILED" || eq_str status "CANCELLED".

(** A poll that leaves the loop running: the request failed with a
    [RequestException], or the response is an object whose status is not a
    terminal one. *)
Definition non_terminal (o : http_outcome) : bool :=
  match o with
  | HttpError _ => true
  | HttpJson (JObj fields) => negb (terminal (status_of fields))
  | HttpJson _ => false
  end.

(** The history of [n] polls that found nothing terminal. *)
Fixpoint waiting (endpoint : string) (hdrs : headers) (n : nat) : history :=
  match n with
  | O => []
  | S n' => HttpGet endpoint hdrs 10 :: Sleep 5 :: waiting endpoint hdrs n'
  end.

(** The message of the [ValueError] for a failed or cancelled job. *)
Definition failure_message `{PyRuntime} (fields : list (string * value)) : string :=
  "RunPod job failed with status: " +:+ py_str (status_of fields) +:+
  match lookup_field "error" fields with
  | Some err => ", error: " +:+ py_str err
  | None => EmptyString
  end.

(** From history [h] on, none of the next [k] polls for [job_id] finds a
    terminal status. *)
Definition quiet_before `{PyRuntime} (environ : gmap string string) (env : Env)
    (job_id : value) (k : nat) (h : history) : Prop :=
  forall j, (j < k)%nat ->
    non_terminal (http_get env (count is_get h + j)
                    (status_endpoint environ job_id) (poll_headers environ)) = true.

(** Both credentials of the inference API are set and not empty. *)
Definition configured (environ : gmap string string) : bool :=
  truthy (RUNPOD_API_KEY environ) && truthy (RUNPOD_ENDPOINT_URL environ).

(** What [retrieve] gives: the stored object, decoded. *)
Definition retrieved `{PyRuntime} (env : Env) (bucket : value) (key : string) : exn + string :=
  match s3_get_object env bucket key with
  | inl e => inl e
  | inr body => utf8_decode body
  end.

(** The request that submits [text_data]. *)
Definition submission (environ : gmap string string) (text_data : string) : io_event :=
  HttpPost (fmt (RUNPOD_ENDPOINT_URL environ) +:+ "/run")
    [("Authorization", "Bearer " +:+ fmt (RUNPOD_API_KEY environ));
     ("Content-Type", "application/json")]
    (run_payload text_data) 30.

Definition poll_event (ev : io_event) : bool := is_get ev || is_sleep ev.

(** The shapes a run of the handler's body on the object [bucket]/[key]
    can have: what it returns or raises and the calls it made, in order. *)
Inductive handler_run `{PyRuntime} (environ : gmap string string) (env : Env)
    (bucket : value) (key : string) : exn + value -> history -> Prop :=
| run_read_only (e : exn) :
    handler_run environ env bucket key (inl e) [S3Get bucket key]
| run_submitted (e : exn) (text_data : string) (polls : history) :
    retrieved env bucket key = inr text_data ->
    configured environ = true ->
    forallb poll_event polls = true ->
    handler_run environ env bucket key (inl e)
      (S3Get bucket key :: submission environ text_data :: polls)
| run_stored (result : exn + value) (text_data : string) (polls : history) (body : bytes) :
    retrieved env bucket key = inr text_data ->
    configured environ = true ->
    forallb poll_event polls = true ->
    result = inr (success_result (output_bucket_of environ bucket)
                    (output_key_of environ key))
    \/ (exists e, result = inl e) ->
    handler_run environ env bucket key result
      (S3Get bucket key :: submission environ text_data ::
       polls ++ [S3Put (output_bucket_of environ bucket) (output_key_of environ key)
                   body "text/plain"]).

(** Nested dictionary lookup, [v[k1][k2]...]. *)
Fixpoint dig (path : list string) (v : value) : option value :=
  match path with
  | [] => Some v
  | k :: path' =>
      match v with
      | JObj fields =>
          match lookup_field k fields with
          | Some x => dig path' x
          | None => None
          end
      | _ => None
      end
  end.

(** A computation that leaves the history alone. *)
Definition pure {A} (c : M A) : Prop := forall h, c h = (fst (c []), h).

(** ** More of the demo world *)

(** A response that says only [IN_PROGRESS], and a request that fails. *)
Definition still_running : http_outcome := status_response "IN_PROGRESS" [].
Definition connection_reset : http_outcome := HttpError "Connection reset by peer".

(** An environment variable that is unset or empty. *)
Definition missing (o : option string) : Prop := o = None \/ o = Some EmptyString.

(** The field names of an object. *)
Definition keys (v : value) : list string :=
  match v with JObj fields => map fst fields | _ => [] end.

(** Polls that fail and find the job running in turn. *)
Definition flaky_polls (n : nat) : http_outcome :=
  if Nat.even n then connection_reset else still_running.

(** Two polls find the job running, the third finds it failed. *)
Definition failing_polls (n : nat) : http_outcome :=
  if (n <? 2)%nat then still_running
  else status_response "FAILED" [("error", JStr "CUDA out of memory")].

Definition demo_endpoint : string := "https://api.runpod.ai/v2/ep/status/job-1".
Definition demo_poll_headers : headers := [("Authorization", "Bearer secret")].

(** The same object key in another bucket, with more records after it. *)
Definition other_event : value :=
  JObj [("Records", JArr [s3_record "archive" "calls/call+1.txt";
                          s3_record "archive" "calls/call+2.txt"])].

Definition demo_put (bucket : string) : io_event :=
  S3Put (JStr bucket) "summaries/call 1_summary.txt"
    (String.list_byte_of_string "a summary") "text/plain".

(** What the handler does on [event] in the demo world. *)
Definition demo_run (environ : gmap string string) (event : value) : (exn + value) * history :=
  @lambda_handler ascii_runtime environ (demo_env demo_polls) event JNull [].

Definition demo_events : history := Eval vm_compute in snd (demo_run demo_environ demo_event).
Definition other_events : history := Eval vm_compute in snd (demo_run demo_environ other_event).

Definition returns_failure (run : (exn + value) * history) (class : exc_class) : Prop :=
  exists msg, fst run = inr (@failure_result ascii_runtime (Exn class msg)).

(** The first poll of job-1 finds it completed with [output]. *)
Definition poll_with (output : value) : exn + value :=
  fst (@poll_runpod_job ascii_runtime demo_environ
         (demo_env (fun _ => status_response "COMPLETED" [("output", output)]))
         (JStr "job-1") []).


(** ** Other worlds *)

(** The message of a storage error, if any, is text the demo codec
    encodes. *)
Definition plain_error {A} (r : exn + A) : bool :=
  match r with inl e => succeeds (ascii_encode (exn_str e)) | inr _ => true end.

Definition plain_refusal (o : option exn) : bool :=
  match o with Some e => succeeds (ascii_encode (exn_str e)) | None => true end.

(** A check that holds, found by computing it. *)
Class Holds (b : bool) : Prop := holds : b = true.
#[global] Hint Extern 0 (Holds _) => vm_compute; reflexivity : typeclass_instances.

(** A world given by what storage holds, whether it accepts the write,
    and what the inference API answers to the submission and to each
    poll. *)
Definition world (object : exn + bytes) (refusal : option exn)
    (accepted : http_outcome) (polls : nat -> http_outcome)
    {object_text : Holds (plain_error object)}
    {refusal_text : Holds (plain_refusal refusal)} : @Env ascii_runtime :=
  @Build_Env ascii_runtime
    (fun _ _ => object)
    (fun _ _ _ _ => refusal)
    (fun _ _ _ => accepted)
    (fun n _ _ => polls n)
    (fun _ _ e Hget =>
       eq_ind object (fun r => plain_error r = true) object_text (inl e) Hget)
    (fun _ _ _ _ e Hput =>
       eq_ind refusal (fun o => plain_refusal o = true) refusal_text (Some e) Hput).

Definition notes : exn + bytes := inr (String.list_byte_of_string "meeting notes").
Definition job_accepted : http_outcome := HttpJson (JObj [("id", JStr "job-1")]).

(** What the handler has done when it starts polling in the demo world. *)
Definition demo_submitted : history :=
  [S3Get (JStr "transcripts") "calls/call 1.txt"; submission demo_environ "meeting notes"].

(** A character the demo codec refuses.  It stands for an unpaired
    surrogate, which [json.loads] makes of an escape such as \ud83d and
    which UTF-8 cannot encode. *)
Definition unpaired_surrogate : string := String "216"%char EmptyString.

(** The first poll finds the job failed, with an error text that cannot
    be encoded. *)
Definition garbled_failure (n : nat) : http_outcome :=
  status_response "FAILED" [("error", JStr ("out of memory " +:+ unpaired_surrogate))].




(** ** Budgets *)

(** Whatever the history it starts from, [c] makes at most [gets] status
    requests and sleeps at most [seconds] seconds. *)
Definition within_budget {A} (c : M A) (gets : nat) (seconds : Z) : Prop :=
  forall h, exists evs,
    snd (c h) = h ++ evs
    /\ (count is_get evs <= gets)%nat
    /\ slept evs <= seconds.

(** * Properties *)

(** ** Strings *)

Lemma append_cons (x : ascii) (a b : string) : String x a +:+ b = String x (a +:+ b).
Proof. reflexivity. Qed.

Lemma append_nil_r (a : string) : a +:+ EmptyString = a.
Proof. induction a as [|x a IH]; [reflexivity|]. now rewrite append_cons, IH. Qed.

Lemma append_assoc (a b c : string) : (a +:+ b) +:+ c = a +:+ (b +:+ c).
Proof. induction a as [|x a IH]; [reflexivity|]. now rewrite !append_cons, IH. Qed.



(** ** The history *)

Lemma count_app (p : io_event -> bool) (h1 h2 : history) :
  count p (h1 ++ h2) = (count p h1 + count p h2)%nat.
Proof. induction h1 as [|ev h1 IH]; simpl; [reflexivity | rewrite IH; lia]. Qed.

Lemma count_get_waiting (endpoint : string) (hdrs : headers) (n : nat) :
  count is_get (waiting endpoint hdrs n) = n.
Proof. induction n as [|n IH]; simpl; [reflexivity | now rewrite IH]. Qed.

Lemma count_sleep_waiting (endpoint : string) (hdrs : headers) (n : nat) :
  count is_sleep (waiting endpoint hdrs n) = n.
Proof. induction n as [|n IH]; simpl; [reflexivity | now rewrite IH]. Qed.

Lemma slept_waiting (endpoint : string) (hdrs : headers) (n : nat) :
  slept (waiting endpoint hdrs n) = 5 * Z.of_nat n.
Proof. induction n as [|n IH]; [reflexivity|]. cbn [waiting slept]. rewrite IH. lia. Qed.

(** ** The poll loop *)

Section Polling.
Context {rt : PyRuntime}.
Variable environ : gmap string string.
Variable env : Env.
Variable endpoint : string.
Variable hdrs : headers.

Local Abbreviation attempt := (poll_attempt env endpoint hdrs).
Local Abbreviation answer h := (http_get env (count is_get h) endpoint hdrs).

Ltac run_attempt H :=
  unfold poll_attempt, try_except, bind, requests_get, emit, of_outcome;
  rewrite H; cbn.

(** A request error, or a status that is not terminal: sleep, go on. *)
Lemma poll_attempt_non_terminal (h : history) :
  non_terminal (answer h) = true ->
  attempt h = (inr None, h ++ [HttpGet endpoint hdrs 10; Sleep 5]).
Proof.
  intros Hnt. destruct (answer h) as [msg | body] eqn:Hout.
  - run_attempt Hout. now rewrite <- app_assoc.
  - destruct body as [| | | | | |fields]; try discriminate Hnt.
    cbn in Hnt. unfold terminal in Hnt.
    apply negb_true_iff in Hnt.
    apply orb_false_iff in Hnt as [Hnt Hc].
    apply orb_false_iff in Hnt as [Hd Hf].
    run_attempt Hout. fold (status_of fields).
    rewrite Hd, Hf, Hc. cbn. now rewrite <- app_assoc.
Qed.

(** A failed or cancelled job: [ValueError], and no sleep. *)
Lemma poll_attempt_failed (h : history) (fields : list (string * value)) :
  answer h = HttpJson (JObj fields) ->
  eq_str (status_of fields) "FAILED" || eq_str (status_of fields) "CANCELLED" = true ->
  attempt h
  = (inl (Exn ValueError (failure_message fields)), h ++ [HttpGet endpoint hdrs 10]).
Proof.
  intros Hout Hst.
  assert (Hc : eq_str (status_of fields) "COMPLETED" = false).
  { destruct (status_of fields) as [| | | |s| |]; try reflexivity.
    cbn in *. apply orb_true_iff in Hst as [H%String.eqb_eq | H%String.eqb_eq];
      subst s; reflexivity. }
  run_attempt Hout. fold (status_of fields). rewrite Hc, Hst.
  unfold failure_message, has_field.
  destruct (lookup_field "error" fields) as [err|]; cbn.
  - now rewrite append_assoc.
  - now rewrite append_nil_r.
Qed.

(** A completed job with an [output]: what the chain of tests makes of
    each shape. *)
Lemma poll_attempt_completed (h : history) (fields : list (string * value))
    (output : value) :
  answer h = HttpJson (JObj fields) ->
  eq_str (status_of fields) "COMPLETED" = true ->
  lookup_field "output" fields = Some output ->
  attempt h
  = (match output with
     | JStr _ => inr (Some output)
     | JObj ofields =>
         inr (Some (from_option id (JStr (json_dumps output))
                      (lookup_field "text" ofields)))
     | JArr (JObj efields :: _) =>
         inr (Some (from_option id (JStr (json_dumps output))
                      (lookup_field "text" efields)))
     | JArr (first :: _) => inl (no_attribute first "get")
     | _ => inr (Some (JStr (json_dumps output)))
     end, h ++ [HttpGet endpoint hdrs 10]).
Proof.
  intros Hout Hst Hfield.
  run_attempt Hout. fold (status_of fields). rewrite Hst.
  unfold has_field. rewrite Hfield. cbn.
  destruct output as [| | | | |items|ofields]; cbn; try reflexivity.
  - destruct items as [|first items]; cbn; [reflexivity|].
    destruct first; reflexivity.
  - unfold has_field. destruct (lookup_field "text" ofields); reflexivity.
Qed.

(** A completed job without [output]. *)
Lemma poll_attempt_no_output (h : history) (fields : list (string * value)) :
  answer h = HttpJson (JObj fields) ->
  eq_str (status_of fields) "COMPLETED" = true ->
  lookup_field "output" fields = None ->
  attempt h
  = (inl (Exn ValueError ("No output found in completed job: " +:+ py_repr (JObj fields))),
     h ++ [HttpGet endpoint hdrs 10]).
Proof.
  intros Hout Hst Hfield.
  run_attempt Hout. fold (status_of fields). rewrite Hst.
  unfold has_field. now rewrite Hfield.
Qed.

(** A response that is not an object has no [get]. *)
Lemma poll_attempt_not_dict (h : history) (body : value) :
  answer h = HttpJson body ->
  is_dict body = false ->
  attempt h = (inl (no_attribute body "get"), h ++ [HttpGet endpoint hdrs 10]).
Proof.
  intros Hout Hd. run_attempt Hout. destruct body; try discriminate Hd; reflexivity.
Qed.

(** [k] polls that find nothing terminal use up [k] turns of the loop. *)
Lemma poll_loop_waiting (k n : nat) : forall h : history,
  (forall j, (j < k)%nat ->
     non_terminal (http_get env (count is_get h + j) endpoint hdrs) = true) ->
  poll_loop env (k + n) endpoint hdrs h
  = poll_loop env n endpoint hdrs (h ++ waiting endpoint hdrs k).
Proof.
  induction k as [|k IH]; intros h Hnt.
  - cbn. now rewrite app_nil_r.
  - cbn [Nat.add poll_loop]. unfold bind at 1.
    rewrite poll_attempt_non_terminal.
    2:{ specialize (Hnt O). rewrite Nat.add_0_r in Hnt. apply Hnt. lia. }
    rewrite IH.
    + cbn [waiting]. now rewrite <- app_assoc.
    + intros j Hj. rewrite count_app. cbn.
      replace (count is_get h + 1 + j)%nat with (count is_get h + S j)%nat by lia.
      apply Hnt. lia.
Qed.

(** The loop stops at the first turn whose body raises. *)
Lemma poll_loop_raises (n : nat) (h h' : history) (e : exn) :
  attempt h = (inl e, h') ->
  poll_loop env (S n) endpoint hdrs h = (inl e, h').
Proof. intros H. cbn [poll_loop]. unfold bind. now rewrite H. Qed.

End Polling.

Section PollJob.
Context {rt : PyRuntime}.
Variable environ : gmap string string.
Variable env : Env.
Variable job_id : value.

Local Abbreviation endpoint := (status_endpoint environ job_id).
Local Abbreviation hdrs := (poll_headers environ).


Lemma poll_job_raises (k : nat) (h h' : history) (e : exn) :
  (k < MAX_POLLING_ATTEMPTS)%nat ->
  quiet_before environ env job_id k h ->
  poll_attempt env endpoint hdrs (h ++ waiting endpoint hdrs k) = (inl e, h') ->
  poll_runpod_job environ env job_id h = (inl e, h').
Proof.
  intros Hk Hq Hat. unfold poll_runpod_job, bind.
  replace MAX_POLLING_ATTEMPTS with (k + S (MAX_POLLING_ATTEMPTS - S k))%nat by lia.
  rewrite poll_loop_waiting by exact Hq.
  now rewrite (poll_loop_raises _ _ _ _ _ _ _ Hat).
Qed.



End PollJob.

(** ** Steps of the handler *)

Section Steps.
Context {rt : PyRuntime}.
Variable environ : gmap string string.
Variable env : Env.

Lemma pure_ret {A} (a : A) : pure (ret a).
Proof. intros h. reflexivity. Qed.

Lemma pure_raise {A} (e : exn) : pure (@raise A e).
Proof. intros h. reflexivity. Qed.

Lemma pure_bind {A B} (c : M A) (k : A -> M B) :
  pure c -> (forall a, pure (k a)) -> pure (bind c k).
Proof.
  intros Hc Hk h. unfold bind. rewrite (Hc h).
  pose proof (Hc []) as H0. destruct (c []) as [r h0]. cbn in *.
  injection H0 as ->. destruct r as [e|a]; [reflexivity|]. apply Hk.
Qed.

Lemma pure_lift_result {A} (r : exn + A) : pure (lift_result r).
Proof. destruct r; intros h; reflexivity. Qed.

Lemma pure_getitem (v : value) (k : string) : pure (getitem v k).
Proof.
  destruct v; try (intros h; reflexivity).
  cbn. destruct (lookup_field k fields); intros h; reflexivity.
Qed.

Lemma pure_getitem0 (v : value) : pure (getitem0 v).
Proof.
  destruct v as [| | | |s|items|fields]; try (intros h; reflexivity).
  - destruct s; intros h; reflexivity.
  - destruct items; intros h; reflexivity.
Qed.

Lemma pure_py_unquote_plus (v : value) : pure (py_unquote_plus v).
Proof. destruct v; intros h; reflexivity. Qed.

Lemma pure_encode_method (v : value) : pure (encode_method v).
Proof. destruct v; try (intros h; reflexivity). apply pure_lift_result. Qed.

Lemma pure_parse_event (event : value) : pure (parse_event event).
Proof.
  unfold parse_event.
  repeat (apply pure_bind;
          [first [apply pure_getitem | apply pure_getitem0 | apply pure_py_unquote_plus]
          | intros ?]).
  apply pure_ret.
Qed.


Lemma retrieve_spec (bucket : value) (key : string) (h : history) :
  retrieve env bucket key h = (retrieved env bucket key, h ++ [S3Get bucket key]).
Proof.
  unfold retrieve, retrieved, try_except, bind, s3_client_get_object, bind, emit, lift_result.
  destruct (s3_get_object env bucket key) as [e|body]; cbn; [reflexivity|].
  destruct (utf8_decode body); reflexivity.
Qed.
Lemma pure_py_in (k : string) (v : value) : pure (py_in k v).
Proof. destruct v; intros h; reflexivity. Qed.

(** An [except] clause that only re-raises changes nothing. *)
Lemma try_except_reraise {A} (c : M A) (catches : exn -> bool) (h : history) :
  try_except c catches (fun e => raise e) h = c h.
Proof.
  unfold try_except. destruct (c h) as [[e|a] h']; [|reflexivity].
  destruct (catches e); reflexivity.
Qed.

Lemma bind_pure_history {A B} (c : M A) (k : A -> M B) (h : history) :
  (forall a, pure (k a)) -> snd (bind c k h) = snd (c h).
Proof.
  intros Hk. unfold bind. destruct (c h) as [[e|a] h']; [reflexivity|].
  now rewrite (Hk a h').
Qed.

(** Without credentials nothing is sent. *)
Lemma initiate_not_configured (text_data : string) (h : history) :
  configured environ = false ->
  initiate_runpod_job environ env text_data h
  = (inl (Exn ValueError "RunPod API key or endpoint URL not configured"), h).
Proof.
  unfold configured, initiate_runpod_job. intros Hc.
  destruct (truthy (RUNPOD_API_KEY environ)), (truthy (RUNPOD_ENDPOINT_URL environ));
    try discriminate Hc; reflexivity.
Qed.

(** With credentials exactly one request is sent, carrying the payload. *)
Lemma initiate_configured (text_data : string) (h : history) :
  configured environ = true ->
  snd (initiate_runpod_job environ env text_data h) = h ++ [submission environ text_data].
Proof.
  unfold configured, initiate_runpod_job. intros Hc.
  apply andb_true_iff in Hc as [-> ->]. cbn [negb orb].
  rewrite try_except_reraise, bind_pure_history.
  - unfold requests_post, bind, emit, of_outcome.
    destruct (http_post env _ _ _); reflexivity.
  - intros result. apply pure_bind; [apply pure_py_in|]. intros has_id.
    destruct (negb has_id); [apply pure_raise|].
    apply pure_bind; [apply pure_getitem | intros ?; apply pure_ret].
Qed.

Lemma put_object_history (bucket : value) (key : string) (body : bytes)
    (content_type : string) (h : history) :
  snd (s3_client_put_object env bucket key body content_type h)
  = h ++ [S3Put bucket key body content_type].
Proof.
  unfold s3_client_put_object, bind, emit.
  destruct (s3_put_object env bucket key body content_type); reflexivity.
Qed.

(** One turn of the loop makes one status request and at most one sleep. *)
Lemma poll_attempt_history (endpoint : string) (hdrs : headers) (h : history) :
  exists evs, snd (poll_attempt env endpoint hdrs h) = h ++ evs
              /\ forallb poll_event evs = true.
Proof.
  destruct (http_get env (count is_get h) endpoint hdrs) as [msg|body] eqn:Hout.
  - rewrite poll_attempt_non_terminal by now rewrite Hout.
    eexists; split; reflexivity.
  - destruct (is_dict body) eqn:Hd.
    2:{ rewrite (poll_attempt_not_dict _ _ _ _ _ Hout Hd). eexists; split; reflexivity. }
    destruct body as [| | | | | |fields]; try discriminate Hd.
    destruct (eq_str (status_of fields) "COMPLETED") eqn:Hc.
    + destruct (lookup_field "output" fields) as [output|] eqn:Ho.
      * rewrite (poll_attempt_completed _ _ _ _ _ _ Hout Hc Ho).
        eexists; split; reflexivity.
      * rewrite (poll_attempt_no_output _ _ _ _ _ Hout Hc Ho).
        eexists; split; reflexivity.
    + destruct (eq_str (status_of fields) "FAILED" || eq_str (status_of fields) "CANCELLED")
        eqn:Hf.
      * rewrite (poll_attempt_failed _ _ _ _ _ Hout Hf). eexists; split; reflexivity.
      * rewrite poll_attempt_non_terminal.
        -- eexists; split; reflexivity.
        -- rewrite Hout. cbn. unfold terminal. rewrite Hc. cbn.
           apply orb_false_iff in Hf as [-> ->]. reflexivity.
Qed.

Lemma forallb_app' (p : io_event -> bool) (a b : history) :
  forallb p a = true -> forallb p b = true -> forallb p (a ++ b) = true.
Proof. intros Ha Hb. rewrite forallb_app, Ha, Hb. reflexivity. Qed.

Lemma poll_loop_history (n : nat) (endpoint : string) (hdrs : headers) :
  forall h, exists evs, snd (poll_loop env n endpoint hdrs h) = h ++ evs
                        /\ forallb poll_event evs = true.
Proof.
  induction n as [|n IH]; intros h.
  - exists []. cbn. now rewrite app_nil_r.
  - destruct (poll_attempt_history endpoint hdrs h) as (evs & Hsnd & Hall).
    cbn [poll_loop]. unfold bind.
    destruct (poll_attempt env endpoint hdrs h) as [[e|[v|]] h']; cbn in Hsnd; subst h'.
    + exists evs. split; [reflexivity | exact Hall].
    + exists evs. split; [reflexivity | exact Hall].
    + destruct (IH (h ++ evs)) as (evs' & Hsnd' & Hall').
      exists (evs ++ evs'). rewrite Hsnd', app_assoc. split; [reflexivity|].
      now apply forallb_app'.
Qed.

(** Polling makes status requests and sleeps, nothing else. *)
Lemma poll_job_history (job_id : value) (h : history) :
  exists evs, snd (poll_runpod_job environ env job_id h) = h ++ evs
              /\ forallb poll_event evs = true.
Proof.
  destruct (poll_loop_history MAX_POLLING_ATTEMPTS (status_endpoint environ job_id)
              (poll_headers environ) h) as (evs & Hsnd & Hall).
  exists evs. split; [|exact Hall].
  unfold poll_runpod_job, bind.
  destruct (poll_loop env MAX_POLLING_ATTEMPTS _ _ h) as [[e|[v|]] h']; exact Hsnd.
Qed.

(** Every run of the handler's body has one of the shapes of
    [handler_run]; nothing at all happens when the event cannot be parsed. *)
Lemma pipeline_run (event : value) (h : history) :
  match fst (parse_event event []) with
  | inl e => pipeline environ env event h = (inl e, h)
  | inr (bucket, key) =>
      exists result evs,
        pipeline environ env event h = (result, h ++ evs)
        /\ handler_run environ env bucket key result evs
  end.
Proof.
  unfold pipeline, bind.
  rewrite (pure_parse_event event h).
  destruct (fst (parse_event event [])) as [e|[bucket key]]; [reflexivity|].
  cbn beta iota delta [fst snd].
  rewrite retrieve_spec.
  destruct (retrieved env bucket key) as [e|text_data] eqn:Hr.
  { exists (inl e), [S3Get bucket key]. split; [reflexivity | constructor]. }
  destruct (configured environ) eqn:Hc.
  2:{ rewrite initiate_not_configured by exact Hc.
      eexists _, [S3Get bucket key]. split; [reflexivity | constructor]. }
  pose proof (initiate_configured text_data (h ++ [S3Get bucket key]) Hc) as Hi.
  destruct (initiate_runpod_job environ env text_data (h ++ [S3Get bucket key]))
    as [[e|run_response] h1].
  all: cbn in Hi; subst h1; rewrite <- app_assoc; cbn [app].
  { eexists _, _. split; [reflexivity|].
    apply (run_submitted _ _ _ _ e text_data []); auto. }
  rewrite (pure_getitem run_response "id" _).
  destruct (fst (getitem run_response "id" [])) as [e|job_id].
  { eexists _, _. split; [reflexivity|].
    apply (run_submitted _ _ _ _ e text_data []); auto. }
  destruct (poll_job_history job_id
              (h ++ [S3Get bucket key; submission environ text_data]))
    as (polls & Hp & Hall).
  destruct (poll_runpod_job environ env job_id _) as [[e|summary] h2].
  all: cbn in Hp; subst h2; rewrite <- app_assoc; cbn [app].
  { eexists _, _. split; [reflexivity|]. now apply run_submitted. }
  rewrite (pure_encode_method summary _).
  destruct (fst (encode_method summary [])) as [e|body].
  { eexists _, _. split; [reflexivity|]. now apply run_submitted. }
  match goal with
  | |- context [s3_client_put_object env ?b ?k ?bd ?ct ?h0] =>
      pose proof (put_object_history b k bd ct h0) as Hs;
      destruct (s3_client_put_object env b k bd ct h0) as [[e|[]] h3]
  end.
  all: cbn in Hs; subst h3; rewrite <- app_assoc; cbn [app].
  - eexists _, _. split; [reflexivity|].
    apply run_stored with (text_data := text_data); eauto.
  - eexists _, _. split; [reflexivity|].
    apply run_stored with (text_data := text_data); auto.
Qed.

(** *** The [except] clause of the handler *)

Lemma pure_print (text : string) : pure (print text).
Proof. unfold print. destruct (utf8_encode text); intros h; reflexivity. Qed.

(** The clause makes no call: the handler's calls are those of its body. *)
Lemma handler_history (event context : value) (h : history) :
  snd (lambda_handler environ env event context h) = snd (pipeline environ env event h).
Proof.
  unfold lambda_handler, try_except, bind, print.
  destruct (pipeline environ env event h) as [[e|v] h']; [|reflexivity].
  destruct (utf8_encode _); reflexivity.
Qed.


(** The fixed words before the text of the exception can be encoded. *)
Lemma encodes_error_line (text : string) :
  succeeds (utf8_encode ("Error in lambda_handler: " +:+ text))
  = succeeds (utf8_encode text).
Proof. rewrite encode_append, encode_ascii; reflexivity. Qed.

(** An exception whose text can be encoded is reported. *)
Lemma handler_reports (event context : value) (h h' : history) (e : exn) :
  pipeline environ env event h = (inl e, h') ->
  succeeds (utf8_encode (exn_str e)) = true ->
  lambda_handler environ env event context h = (inr (failure_result e), h').
Proof.
  intros Hp He. unfold lambda_handler, try_except, bind, print. rewrite Hp.
  rewrite <- encodes_error_line in He.
  destruct (utf8_encode _); [discriminate | reflexivity].
Qed.

(** An exception whose text cannot be encoded makes the clause raise. *)
Lemma handler_raises (event context : value) (h h' : history) (e e' : exn) :
  pipeline environ env event h = (inl e, h') ->
  utf8_encode ("Error in lambda_handler: " +:+ exn_str e) = inl e' ->
  lambda_handler environ env event context h = (inl e', h').
Proof.
  intros Hp He. unfold lambda_handler, try_except, bind, print. now rewrite Hp, He.
Qed.
End Steps.

(** ** poll_runpod_job *)

(** C1, at the input where the code departs from it: the job is completed
    and its output is a list whose first element is the text itself.
    Whatever the runtime, [poll_runpod_job] does not return a text: taking
    [.get] of the string raises [AttributeError], after a single status
    request. *)
Theorem poll_completed_list_of_strings_raises :
  forall rt : PyRuntime,
    @poll_runpod_job rt demo_environ
      (demo_env (fun _ => status_response "COMPLETED" [("output", JArr [JStr "a summary"])]))
      (JStr "job-1") []
    = (inl (Exn AttributeError "'str' object has no attribute 'get'"),
       [HttpGet "https://api.runpod.ai/v2/ep/status/job-1"
          [("Authorization", "Bearer secret")] 10]).
Proof.
  intros rt.
  apply (poll_job_raises demo_environ _ (JStr "job-1") 0).
  - unfold MAX_POLLING_ATTEMPTS. lia.
  - intros j Hj. lia.
  - reflexivity.
Qed.



(** ** Reading a run of the handler *)

Section Runs.
Context {rt : PyRuntime}.
Variable environ : gmap string string.
Variable env : Env.
Variables (bucket : value) (key : string) (result : exn + value) (evs : history).
Hypothesis run : handler_run environ env bucket key result evs.


Lemma poll_event_in (polls : history) (ev : io_event) :
  forallb poll_event polls = true -> In ev polls -> poll_event ev = true.
Proof. intros Hall Hin. now apply (proj1 (forallb_forall _ _) Hall). Qed.

(** The only object read is the one the event names. *)
Lemma run_reads (b : value) (k : string) :
  In (S3Get b k) evs -> b = bucket /\ k = key.
Proof.
  destruct run as [e|e text_data polls Hr Hc Hall|res text_data polls body Hr Hc Hall Hres].
  all: cbn; intros Hin.
  - destruct Hin as [[= <- <-]|[]]. now split.
  - destruct Hin as [[= <- <-]|[Hin|Hin]]; [now split | discriminate Hin |].
    apply (poll_event_in _ _ Hall) in Hin. discriminate Hin.
  - destruct Hin as [[= <- <-]|[Hin|Hin]]; [now split | discriminate Hin |].
    apply in_app_or in Hin as [Hin|[Hin|[]]]; [|discriminate Hin].
    apply (poll_event_in _ _ Hall) in Hin. discriminate Hin.
Qed.

(** The only submission carries the payload made from the retrieved text. *)
Lemma run_posts (url : string) (hd : headers) (json : value) (timeout : Z) :
  In (HttpPost url hd json timeout) evs ->
  exists text_data,
    retrieved env bucket key = inr text_data
    /\ HttpPost url hd json timeout = submission environ text_data.
Proof.
  destruct run as [e|e text_data polls Hr Hc Hall|res text_data polls body Hr Hc Hall Hres].
  all: cbn; intros Hin.
  - destruct Hin as [Hin|[]]. discriminate Hin.
  - destruct Hin as [Hin|[Hin|Hin]]; [discriminate Hin | |].
    + exists text_data. now split.
    + apply (poll_event_in _ _ Hall) in Hin. discriminate Hin.
  - destruct Hin as [Hin|[Hin|Hin]]; [discriminate Hin | |].
    + exists text_data. now split.
    + apply in_app_or in Hin as [Hin|[Hin|[]]]; [|discriminate Hin].
      apply (poll_event_in _ _ Hall) in Hin. discriminate Hin.
Qed.

(** The only write goes to the output bucket, under the derived key, and
    follows the read of the input object. *)
Lemma run_puts (b : value) (k : string) (body : bytes) (content_type : string) :
  In (S3Put b k body content_type) evs ->
  b = output_bucket_of environ bucket
  /\ k = output_key_of environ key
  /\ content_type = "text/plain"
  /\ In (S3Get bucket key) evs.
Proof.
  destruct run as [e|e text_data polls Hr Hc Hall|res text_data polls body' Hr Hc Hall Hres].
  all: cbn; intros Hin.
  - destruct Hin as [Hin|[]]. discriminate Hin.
  - destruct Hin as [Hin|[Hin|Hin]]; [discriminate Hin | discriminate Hin |].
    apply (poll_event_in _ _ Hall) in Hin. discriminate Hin.
  - destruct Hin as [Hin|[Hin|Hin]]; [discriminate Hin | discriminate Hin |].
    apply in_app_or in Hin as [Hin|[Hin|[]]].
    + apply (poll_event_in _ _ Hall) in Hin. discriminate Hin.
    + injection Hin as <- <- <- <-. repeat split; auto.
Qed.


(** Anything beyond the read needs the credentials. *)
Lemma run_not_configured :
  configured environ = false -> evs = [S3Get bucket key].
Proof.
  intros Hn.
  destruct run as [e|e text_data polls Hr Hc Hall|res text_data polls body Hr Hc Hall Hres];
    [reflexivity | congruence | congruence].
Qed.
End Runs.

(** ** The event *)

Section Event.
Context {rt : PyRuntime}.





End Event.

(** ** A well-formed event *)

Section WellFormed.
Context {rt : PyRuntime}.


End WellFormed.

(** ** lambda_handler *)

Section Handler.
Context {rt : PyRuntime}.
Variable environ : gmap string string.
Variable env : Env.

(** What the handler did since [h] is either nothing (the event could not
    be parsed) or a run on the parsed object. *)
Lemma handler_events (event context : value) (h : history) :
  exists evs,
    snd (lambda_handler environ env event context h) = h ++ evs
    /\ ((exists e, fst (parse_event event []) = inl e /\ evs = [])
        \/ exists bucket key result,
             fst (parse_event event []) = inr (bucket, key)
             /\ handler_run environ env bucket key result evs).
Proof.
  rewrite handler_history.
  pose proof (pipeline_run environ env event h) as Hrun.
  destruct (fst (parse_event event [])) as [e|[bucket key]].
  - exists []. rewrite Hrun, app_nil_r. split; [reflexivity|]. left. now exists e.
  - destruct Hrun as (result & evs & Hrun & Hshape).
    exists evs. rewrite Hrun. split; [reflexivity|]. right. now exists bucket, key, result.
Qed.

(** The same, for a run whose events [evs] are given. *)
Lemma handler_events_of (event context : value) (h evs : history) :
  snd (lambda_handler environ env event context h) = h ++ evs ->
  evs = []
  \/ exists bucket key result,
       fst (parse_event event []) = inr (bucket, key)
       /\ handler_run environ env bucket key result evs.
Proof.
  destruct (handler_events event context h) as (evs' & Hrun & Hshape).
  rewrite Hrun. intros ->%app_inv_head.
  destruct Hshape as [(e & _ & ->)|(bucket & key & result & Hp & Hr)]; [now left|].
  right. now exists bucket, key, result.
Qed.

(** *** Texts that can be printed *)












End Handler.

(** C4: the key a summary is stored under is a function of the input key
    alone (for a given OUTPUT_PREFIX): in two invocations on the same key,
    whatever else differs, every write uses the same output key, which is
    OUTPUT_PREFIX followed by the key's basename with '.txt' replaced by
    '_summary.txt'. *)
Theorem output_key_deterministic `{PyRuntime} (environ : gmap string string)
    (env1 env2 : Env) (event1 event2 context1 context2 : value)
    (h1 h2 evs1 evs2 : history) (bucket1 bucket2 : value) (key : string)
    (b1 b2 : value) (k1 k2 : string) (body1 body2 : bytes) (t1 t2 : string) :
  fst (parse_event event1 []) = inr (bucket1, key) ->
  fst (parse_event event2 []) = inr (bucket2, key) ->
  snd (lambda_handler environ env1 event1 context1 h1) = h1 ++ evs1 ->
  snd (lambda_handler environ env2 event2 context2 h2) = h2 ++ evs2 ->
  In (S3Put b1 k1 body1 t1) evs1 ->
  In (S3Put b2 k2 body2 t2) evs2 ->
  k1 = OUTPUT_PREFIX environ +:+ replace ".txt" "_summary.txt" (basename key)
  /\ k2 = k1.
Proof.
  intros Hp1 Hp2 Hr1 Hr2 Hin1 Hin2.
  apply handler_events_of in Hr1 as [->|(b & k & r & Hp & Hrun)]; [destruct Hin1|].
  rewrite Hp1 in Hp. injection Hp as <- <-.
  apply (run_puts _ _ _ _ _ _ Hrun) in Hin1 as (_ & -> & _).
  apply handler_events_of in Hr2 as [->|(b & k & r' & Hp & Hrun')]; [destruct Hin2|].
  rewrite Hp2 in Hp. injection Hp as <- <-.
  apply (run_puts _ _ _ _ _ _ Hrun') in Hin2 as (_ & -> & _).
  split; reflexivity.
Qed.

(** C5, at the inputs where the code departs from it: the body of the
    handler raises an exception whose text standard output cannot encode
    (the error of a failed job holding an unpaired surrogate, say).  The
    [print] of the [except] clause then raises, and [lambda_handler]
    raises with it instead of returning the 500 result. *)
Theorem handler_raises_when_error_cannot_be_printed `{PyRuntime}
    (environ : gmap string string) (env : Env) (event context : value)
    (h h' : history) (e e' : exn) :
  pipeline environ env event h = (inl e, h') ->
  utf8_encode ("Error in lambda_handler: " +:+ exn_str e) = inl e' ->
  lambda_handler environ env event context h = (inl e', h').
Proof. intros Hp He. now apply handler_raises with (e := e). Qed.


(** C7, amended: the body posted to [/run] is an object with the single
    field "input", whose value holds exactly the four fields prompt,
    max_new_tokens (16000), temperature (0.7) and top_p (0.9). *)
Theorem run_request_body `{PyRuntime} (environ : gmap string string) (env : Env)
    (text_data : string) (h : history) :
  configured environ = true ->
  exists prompt,
    snd (initiate_runpod_job environ env text_data h)
    = h ++ [HttpPost (fmt (RUNPOD_ENDPOINT_URL environ) +:+ "/run")
              [("Authorization", "Bearer " +:+ fmt (RUNPOD_API_KEY environ));
               ("Content-Type", "application/json")]
              (JObj [("input", JObj [("prompt", JStr prompt);
                                     ("max_new_tokens", JInt 16000);
                                     ("temperature", JFloat "0.7");
                                     ("top_p", JFloat "0.9")])])
              30].
Proof.
  intros Hc. exists (SUMMARY_INSTRUCTION +:+ text_data).
  now rewrite initiate_configured.
Qed.

(** C8, amended: the prompt submitted is the fixed summarisation
    instruction followed by the text retrieved from storage, which is
    itself unchanged. *)
Theorem prompt_is_instruction_then_text `{PyRuntime} (environ : gmap string string)
    (env : Env) (event context : value) (h evs : history)
    (url : string) (hd : headers) (json : value) (timeout : Z) :
  snd (lambda_handler environ env event context h) = h ++ evs ->
  In (HttpPost url hd json timeout) evs ->
  exists bucket key text_data,
    fst (parse_event event []) = inr (bucket, key)
    /\ retrieved env bucket key = inr text_data
    /\ dig ["input"; "prompt"] json = Some (JStr (SUMMARY_INSTRUCTION +:+ text_data)).
Proof.
  intros Hr Hin.
  apply handler_events_of in Hr as [->|(bucket & key & r & Hp & Hrun)]; [destruct Hin|].
  apply (run_posts _ _ _ _ _ _ Hrun) in Hin as (text_data & Ht & Heq).
  exists bucket, key, text_data. repeat split; [exact Hp | exact Ht |].
  injection Heq as _ _ -> _. reflexivity.
Qed.

(** C9: the summary is written to the bucket the input was read from when
    OUTPUT_BUCKET is unset or empty, and to the bucket OUTPUT_BUCKET names
    when it is not empty, whatever the input bucket. *)
Theorem summary_bucket `{PyRuntime} (environ : gmap string string) (env : Env)
    (event context : value) (h evs : history)
    (b : value) (k : string) (body : bytes) (content_type : string) :
  snd (lambda_handler environ env event context h) = h ++ evs ->
  In (S3Put b k body content_type) evs ->
  exists bucket key,
    In (S3Get bucket key) evs
    /\ (forall b' k', In (S3Get b' k') evs -> b' = bucket)
    /\ (missing (environ !! "OUTPUT_BUCKET") -> b = bucket)
    /\ (forall name, environ !! "OUTPUT_BUCKET" = Some name -> name <> EmptyString ->
          b = JStr name).
Proof.
  intros Hr Hin.
  apply handler_events_of in Hr as [->|(bucket & key & r & Hp & Hrun)]; [destruct Hin|].
  apply (run_puts _ _ _ _ _ _ Hrun) in Hin as (-> & _ & _ & Hget).
  exists bucket, key. split; [exact Hget|]. split; [|split].
  - intros b' k' Hin'. now apply (run_reads _ _ _ _ _ _ Hrun) in Hin'.
  - unfold output_bucket_of, OUTPUT_BUCKET. now intros [->| ->].
  - intros name Hname Hne. unfold output_bucket_of, OUTPUT_BUCKET. rewrite Hname. cbn.
    destruct (String.eqb_spec name EmptyString); [contradiction|reflexivity].
Qed.


(** ** Deriving the output key *)

Lemma after_last_slash_none (s cur : string) :
  has_char "/" s = false -> after_last_slash s cur = cur.
Proof.
  revert cur. induction s as [|c s IH]; intros cur Hs; [reflexivity|].
  cbn [has_char after_last_slash] in *. apply orb_false_iff in Hs as [Hc Hs].
  rewrite Ascii.eqb_sym, Hc. now apply IH.
Qed.

(** The basename of [dir/name] is [name]. *)
Lemma basename_of_path (dir name : string) :
  has_char "/" name = false ->
  basename (dir +:+ String "/" name) = name.
Proof.
  intros Hn. unfold basename.
  generalize (dir +:+ String "/" name) at 2 as cur.
  induction dir as [|c dir IH]; intros cur.
  - change (EmptyString +:+ String "/" name) with (String "/" name).
    cbn [after_last_slash]. rewrite Ascii.eqb_refl. now apply after_last_slash_none.
  - rewrite append_cons. cbn [after_last_slash].
    destruct (Ascii.eqb c "/"); apply IH.
Qed.

Lemma starts_with_other (a c : ascii) (old s : string) :
  Ascii.eqb a c = false -> starts_with (String a old) (String c s) = false.
Proof. cbn [starts_with]. now intros ->. Qed.

(** A name without a dot that ends in [.txt] gets [_summary.txt] instead. *)
Lemma replace_txt_suffix (stem : string) :
  has_char "." stem = false ->
  replace ".txt" "_summary.txt" (stem +:+ ".txt") = stem +:+ "_summary.txt".
Proof.
  unfold replace. induction stem as [|c stem IH]; intros Hs; [reflexivity|].
  cbn [has_char] in Hs. apply orb_false_iff in Hs as [Hc Hs].
  rewrite !append_cons. cbn [replace_from].
  rewrite starts_with_other by exact Hc.
  now rewrite IH.
Qed.

Example replace_every_occurrence :
  replace ".txt" "_summary.txt" "a.txt.txt" = "a_summary.txt_summary.txt".
Proof. reflexivity. Qed.

Example basename_of_nested_key : basename "x/y/call.txt" = "call.txt".
Proof. reflexivity. Qed.

Example basename_of_folder_key : basename "x/y/" = EmptyString.
Proof. reflexivity. Qed.

(** ** Runs in the demo world *)



Example failed_job_message :
  fst (@poll_runpod_job ascii_runtime demo_environ (demo_env failing_polls) (JStr "job-1") [])
  = inl (Exn ValueError "RunPod job failed with status: FAILED, error: CUDA out of memory").
Proof. reflexivity. Qed.

Example demo_run_succeeds :
  demo_run demo_environ demo_event
  = (inr (@success_result ascii_runtime (JStr "transcripts")
            "summaries/call 1_summary.txt"),
     [S3Get (JStr "transcripts") "calls/call 1.txt";
      submission demo_environ "meeting notes";
      HttpGet demo_endpoint demo_poll_headers 10; Sleep 5;
      HttpGet demo_endpoint demo_poll_headers 10; Sleep 5;
      HttpGet demo_endpoint demo_poll_headers 10;
      demo_put "transcripts"]).
Proof. reflexivity. Qed.

Lemma output_key_deterministic_witness :
  "summaries/call 1_summary.txt"
  = OUTPUT_PREFIX demo_environ +:+ replace ".txt" "_summary.txt" (basename "calls/call 1.txt")
  /\ "summaries/call 1_summary.txt" = "summaries/call 1_summary.txt".
Proof.
  apply (@output_key_deterministic ascii_runtime demo_environ
           (demo_env demo_polls) (demo_env demo_polls) demo_event other_event JNull JNull
           [] [] demo_events other_events (JStr "transcripts") (JStr "archive")
           "calls/call 1.txt"
           (JStr "transcripts") (JStr "archive") _ _
           (String.list_byte_of_string "a summary") (String.list_byte_of_string "a summary")
           "text/plain" "text/plain").
  - reflexivity.
  - reflexivity.
  - reflexivity.
  - reflexivity.
  - do 7 right. left. reflexivity.
  - do 7 right. left. reflexivity.
Defined.

Lemma handler_raises_when_error_cannot_be_printed_witness :
  @lambda_handler ascii_runtime demo_environ (demo_env garbled_failure) demo_event JNull []
  = (inl (Exn UnicodeError "'utf-8' codec can't encode character"),
     demo_submitted ++ [HttpGet demo_endpoint demo_poll_headers 10]).
Proof.
  apply (@handler_raises_when_error_cannot_be_printed ascii_runtime demo_environ
           (demo_env garbled_failure) demo_event JNull []
           (demo_submitted ++ [HttpGet demo_endpoint demo_poll_headers 10])
           (Exn ValueError
              ("RunPod job failed with status: FAILED, error: out of memory "
               +:+ unpaired_surrogate))
           (Exn UnicodeError "'utf-8' codec can't encode character")); reflexivity.
Defined.


Lemma run_request_body_witness :
  configured demo_environ = true
  /\ exists prompt,
       snd (@initiate_runpod_job ascii_runtime demo_environ (demo_env demo_polls)
              "meeting notes" [])
       = [] ++ [HttpPost "https://api.runpod.ai/v2/ep/run"
                  [("Authorization", "Bearer secret");
                   ("Content-Type", "application/json")]
                  (JObj [("input", JObj [("prompt", JStr prompt);
                                         ("max_new_tokens", JInt 16000);
                                         ("temperature", JFloat "0.7");
                                         ("top_p", JFloat "0.9")])])
                  30].
Proof.
  split; [reflexivity|].
  apply (@run_request_body ascii_runtime demo_environ (demo_env demo_polls)
           "meeting notes" []).
  reflexivity.
Defined.

Lemma prompt_is_instruction_then_text_witness :
  exists bucket key text_data,
    fst (@parse_event ascii_runtime demo_event []) = inr (bucket, key)
    /\ @retrieved ascii_runtime (demo_env demo_polls) bucket key = inr text_data
    /\ dig ["input"; "prompt"] (run_payload "meeting notes")
       = Some (JStr (SUMMARY_INSTRUCTION +:+ text_data)).
Proof.
  apply (@prompt_is_instruction_then_text ascii_runtime demo_environ (demo_env demo_polls)
           demo_event JNull [] demo_events
           "https://api.runpod.ai/v2/ep/run"
           [("Authorization", "Bearer secret"); ("Content-Type", "application/json")]
           (run_payload "meeting notes") 30).
  - reflexivity.
  - right. left. reflexivity.
Defined.

Lemma summary_bucket_witness :
  exists bucket key,
    In (S3Get bucket key) demo_events
    /\ (forall b' k', In (S3Get b' k') demo_events -> b' = bucket)
    /\ (missing (demo_environ !! "OUTPUT_BUCKET") -> JStr "transcripts" = bucket)
    /\ (forall name, demo_environ !! "OUTPUT_BUCKET" = Some name -> name <> EmptyString ->
          JStr "transcripts" = JStr name).
Proof.
  apply (@summary_bucket ascii_runtime demo_environ (demo_env demo_polls)
           demo_event JNull [] demo_events (JStr "transcripts")
           "summaries/call 1_summary.txt"
           (String.list_byte_of_string "a summary") "text/plain").
  - reflexivity.
  - do 7 right. left. reflexivity.
Defined.



(** The body posted for the text "meeting notes" has one top-level field,
    "input", and no field "max_tokens" at either level. *)
Lemma run_request_not_flat :
  exists body,
    snd (@initiate_runpod_job ascii_runtime demo_environ (demo_env demo_polls)
           "meeting notes" [])
    = [HttpPost "https://api.runpod.ai/v2/ep/run"
         [("Authorization", "Bearer secret"); ("Content-Type", "application/json")]
         body 30]
    /\ keys body = ["input"]
    /\ keys body <> ["prompt"; "max_tokens"; "temperature"; "top_p"]
    /\ dig ["max_tokens"] body = None
    /\ dig ["input"; "max_tokens"] body = None
    /\ dig ["input"; "max_new_tokens"] body = Some (JInt 16000).
Proof.
  exists (run_payload "meeting notes").
  repeat split; try reflexivity. discriminate.
Qed.

(** The object holds "meeting notes"; the prompt submitted for it is a
    longer text. *)
Lemma prompt_differs_from_text :
  @retrieved ascii_runtime (demo_env demo_polls) (JStr "transcripts") "calls/call 1.txt"
  = inr "meeting notes"
  /\ exists url hd json,
       nth_error (snd (demo_run demo_environ demo_event)) 1 = Some (HttpPost url hd json 30)
       /\ dig ["input"; "prompt"] json <> Some (JStr "meeting notes")
       /\ dig ["input"; "prompt"] json
          = Some (JStr (SUMMARY_INSTRUCTION +:+ "meeting notes")).
Proof.
  split; [reflexivity|].
  eexists _, _, _. split; [reflexivity|]. split; [discriminate | reflexivity].
Qed.

(** *** An exception at each stage ends in the failure result *)

Example parsing_failure :
  returns_failure
    (@lambda_handler ascii_runtime demo_environ (demo_env demo_polls)
       (JObj [("Records", JArr [])]) JNull [])
    IndexError.
Proof. eexists. reflexivity. Qed.

Example retrieval_failure :
  returns_failure
    (@lambda_handler ascii_runtime demo_environ
       (world (inl (Exn ServiceError "NoSuchKey")) None job_accepted demo_polls)
       demo_event JNull [])
    ServiceError.
Proof. eexists. reflexivity. Qed.

Example submission_failure :
  returns_failure
    (@lambda_handler ascii_runtime demo_environ
       (world notes None (HttpError "401 Client Error: Unauthorized") demo_polls)
       demo_event JNull [])
    RequestException.
Proof. eexists. reflexivity. Qed.

Example polling_timeout :
  returns_failure
    (@lambda_handler ascii_runtime demo_environ (demo_env flaky_polls) demo_event JNull [])
    TimeoutError.
Proof. eexists. reflexivity. Qed.

Example polling_failure :
  returns_failure
    (@lambda_handler ascii_runtime demo_environ (demo_env failing_polls) demo_event JNull [])
    ValueError.
Proof. eexists. reflexivity. Qed.

Example storing_failure :
  returns_failure
    (@lambda_handler ascii_runtime demo_environ
       (world notes (Some (Exn ServiceError "AccessDenied")) job_accepted demo_polls)
       demo_event JNull [])
    ServiceError.
Proof. eexists. reflexivity. Qed.

(** *** Completed jobs, shape by shape *)

Example completed_object_with_text :
  poll_with (JObj [("text", JStr "a summary"); ("tokens", JInt 3)]) = inr (JStr "a summary").
Proof. reflexivity. Qed.

Example completed_list_of_generations :
  poll_with (JArr [JObj [("text", JStr "first")]; JObj [("text", JStr "second")]])
  = inr (JStr "first").
Proof. reflexivity. Qed.

Example completed_list_without_text :
  poll_with (JArr [JObj [("tokens", JInt 3)]])
  = inr (JStr (ascii_json_dumps (JArr [JObj [("tokens", JInt 3)]]))).
Proof. reflexivity. Qed.

Example completed_empty_list : poll_with (JArr []) = inr (JStr "[]").
Proof. reflexivity. Qed.

Example completed_number : poll_with (JInt 7) = inr (JStr "7").
Proof. reflexivity. Qed.

(** The [text] of an object is returned as it is, string or not. *)
Example completed_object_with_numeric_text :
  poll_with (JObj [("text", JInt 42)]) = inr (JInt 42).
Proof. reflexivity. Qed.

(** A summary that is not a string cannot be encoded. *)
Example numeric_text_failure :
  returns_failure
    (@lambda_handler ascii_runtime demo_environ
       (demo_env (fun _ => status_response "COMPLETED"
                             [("output", JObj [("text", JInt 42)])]))
       demo_event JNull [])
    AttributeError.
Proof. eexists. reflexivity. Qed.

(** With OUTPUT_BUCKET set, the write goes to that bucket. *)
Example configured_output_bucket :
  nth_error (snd (demo_run (<["OUTPUT_BUCKET" := "summaries-bucket"]> demo_environ)
                    demo_event)) 7
  = Some (demo_put "summaries-bucket").
Proof. reflexivity. Qed.

(** * Further properties of the three functions *)

(** ** One turn of the poll loop, in full *)

Section PollShape.
Context {rt : PyRuntime}.
Variable env : Env.
Variable endpoint : string.
Variable hdrs : headers.

(** A turn either sleeps and goes on, or ends the loop right after its
    request, with a value or with an error that is not a timeout. *)
Lemma poll_attempt_shape (h : history) :
  (non_terminal (http_get env (count is_get h) endpoint hdrs) = true
   /\ poll_attempt env endpoint hdrs h
      = (inr None, h ++ [HttpGet endpoint hdrs 10; Sleep 5]))
  \/ (non_terminal (http_get env (count is_get h) endpoint hdrs) = false
      /\ exists r,
           poll_attempt env endpoint hdrs h = (r, h ++ [HttpGet endpoint hdrs 10])
           /\ r <> inr None
           /\ forall e, r = inl e -> exn_class e <> TimeoutError).
Proof.
  destruct (http_get env (count is_get h) endpoint hdrs) as [msg|body] eqn:Hout.
  - left. split; [reflexivity|]. apply poll_attempt_non_terminal. now rewrite Hout.
  - destruct (is_dict body) eqn:Hd.
    2:{ right. split; [destruct body; try reflexivity; discriminate Hd|].
        eexists. split; [apply (poll_attempt_not_dict _ _ _ _ _ Hout Hd)|].
        split; [discriminate|]. intros e [= <-]. discriminate. }
    destruct body as [| | | | | |fields]; try discriminate Hd.
    destruct (eq_str (status_of fields) "COMPLETED") eqn:Hc.
    + right. split; [cbn; unfold terminal; now rewrite Hc|].
      destruct (lookup_field "output" fields) as [output|] eqn:Ho.
      * eexists. split; [apply (poll_attempt_completed _ _ _ _ _ _ Hout Hc Ho)|].
        destruct output as [| | | | |[|[] items]|ofields];
          (split; [discriminate|]); intros e; try discriminate;
          intros [= <-]; discriminate.
      * eexists. split; [apply (poll_attempt_no_output _ _ _ _ _ Hout Hc Ho)|].
        split; [discriminate|]. intros e [= <-]. discriminate.
    + destruct (eq_str (status_of fields) "FAILED" || eq_str (status_of fields) "CANCELLED")
        eqn:Hf.
      * right. split.
        { cbn. unfold terminal. rewrite Hc. cbn.
          apply negb_false_iff. exact Hf. }
        eexists. split; [apply (poll_attempt_failed _ _ _ _ _ Hout Hf)|].
        split; [discriminate|]. intros e [= <-]. discriminate.
      * left.
        assert (Hnt : non_terminal (HttpJson (JObj fields)) = true).
        { cbn. unfold terminal. rewrite Hc. cbn. now rewrite Hf. }
        split; [exact Hnt|]. apply poll_attempt_non_terminal. now rewrite Hout.
Qed.

(** The loop either uses up its turns, all of them quiet, or stops at a
    turn that ended it. *)
Lemma poll_loop_shape (n : nat) : forall h : history,
  ((forall j, (j < n)%nat ->
      non_terminal (http_get env (count is_get h + j) endpoint hdrs) = true)
   /\ poll_loop env n endpoint hdrs h = (inr None, h ++ waiting endpoint hdrs n))
  \/ exists k r,
       (k < n)%nat
       /\ non_terminal (http_get env (count is_get h + k) endpoint hdrs) = false
       /\ poll_loop env n endpoint hdrs h
          = (r, h ++ waiting endpoint hdrs k ++ [HttpGet endpoint hdrs 10])
       /\ r <> inr None
       /\ forall e, r = inl e -> exn_class e <> TimeoutError.
Proof.
  induction n as [|n IH]; intros h.
  - left. split; [intros j Hj; lia|]. cbn. now rewrite app_nil_r.
  - destruct (poll_attempt_shape h) as [[Hnt Hat]|(Hnt & r & Hat & Hr & Hcls)].
    + cbn [poll_loop]. unfold bind. rewrite Hat.
      destruct (IH (h ++ [HttpGet endpoint hdrs 10; Sleep 5]))
        as [[Hq Hloop]|(k & r & Hk & Hterm & Hloop & Hr & Hcls)].
      * left. split.
        -- intros [|j] Hj; [now rewrite Nat.add_0_r|].
           specialize (Hq j). rewrite count_app in Hq. cbn in Hq.
           replace (count is_get h + S j)%nat with (count is_get h + 1 + j)%nat by lia.
           apply Hq. lia.
        -- rewrite Hloop. cbn [waiting]. now rewrite <- app_assoc.
      * right. exists (S k), r. split; [lia|]. split.
        -- rewrite count_app in Hterm. cbn in Hterm.
           now replace (count is_get h + S k)%nat with (count is_get h + 1 + k)%nat by lia.
        -- split; [|split; assumption].
           rewrite Hloop. cbn [waiting]. now rewrite <- !app_assoc.
    + right. exists O, r. split; [lia|]. split; [now rewrite Nat.add_0_r|].
      split; [|split; assumption].
      cbn [poll_loop waiting app]. unfold bind. rewrite Hat.
      destruct r as [e|[v|]]; [reflexivity | reflexivity | congruence].
Qed.
End PollShape.

(** ** poll_runpod_job, outcome by outcome *)

Section PollOutcomes.
Context {rt : PyRuntime}.
Variable environ : gmap string string.
Variable env : Env.
Variable job_id : value.

Local Abbreviation endpoint := (status_endpoint environ job_id).
Local Abbreviation hdrs := (poll_headers environ).


(** What polling adds to the history: [k] quiet turns, then nothing more
    (the budget is spent) or the one request that ended the loop. *)
Lemma poll_job_events (h : history) :
  exists k,
    (k = MAX_POLLING_ATTEMPTS
     /\ snd (poll_runpod_job environ env job_id h) = h ++ waiting endpoint hdrs k)
    \/ ((k < MAX_POLLING_ATTEMPTS)%nat
        /\ snd (poll_runpod_job environ env job_id h)
           = h ++ waiting endpoint hdrs k ++ [HttpGet endpoint hdrs 10]).
Proof.
  unfold poll_runpod_job, bind.
  destruct (poll_loop_shape env endpoint hdrs MAX_POLLING_ATTEMPTS h)
    as [[_ Hloop]|(k & r & Hk & _ & Hloop & Hr & _)]; rewrite Hloop.
  - exists MAX_POLLING_ATTEMPTS. left. now split.
  - exists k. right. split; [exact Hk|].
    destruct r as [e|[v|]]; [reflexivity | reflexivity | congruence].
Qed.

Lemma in_waiting (k : nat) (ev : io_event) :
  In ev (waiting endpoint hdrs k) -> ev = HttpGet endpoint hdrs 10 \/ ev = Sleep 5.
Proof.
  induction k as [|k IH]; cbn; [tauto|].
  intros [<-|[<-|Hin]]; auto.
Qed.

Lemma slept_app (a b : history) : slept (a ++ b) = slept a + slept b.
Proof.
  induction a as [|ev a IH]; [reflexivity|].
  destruct ev; cbn [app slept]; lia.
Qed.

Lemma poll_job_within_budget :
  within_budget (poll_runpod_job environ env job_id) MAX_POLLING_ATTEMPTS 300.
Proof.
  intros h. destruct (poll_job_events h) as (k & [[-> Hs]|[Hk Hs]]).
  - eexists. split; [exact Hs|].
    rewrite count_get_waiting, slept_waiting. unfold MAX_POLLING_ATTEMPTS. lia.
  - eexists. split; [exact Hs|].
    rewrite count_app, slept_app, count_get_waiting, slept_waiting.
    cbn. unfold MAX_POLLING_ATTEMPTS in *. lia.
Qed.
End PollOutcomes.


(** X2: whatever the service answers, one call of [poll_runpod_job] makes
    at most 60 status requests, all of them GETs of the job's status URL
    with the bearer header and a 10 second timeout; it sleeps 5 seconds at
    a time, no more often than it polls, and so at most 300 seconds. *)
Theorem poll_stays_within_budget `{PyRuntime} (environ : gmap string string)
    (env : Env) (job_id : value) (h : history) :
  exists evs,
    snd (poll_runpod_job environ env job_id h) = h ++ evs
    /\ (count is_get evs <= 60)%nat
    /\ (count is_sleep evs <= count is_get evs)%nat
    /\ slept evs = 5 * Z.of_nat (count is_sleep evs)
    /\ slept evs <= 300
    /\ forall ev, In ev evs ->
         ev = HttpGet (fmt (RUNPOD_ENDPOINT_URL environ) +:+ "/status/" +:+ py_str job_id)
                [("Authorization", "Bearer " +:+ fmt (RUNPOD_API_KEY environ))] 10
         \/ ev = Sleep 5.
Proof.
  destruct (poll_job_events environ env job_id h) as (k & [[-> Hs]|[Hk Hs]]).
  - eexists. split; [exact Hs|].
    rewrite count_get_waiting, count_sleep_waiting, slept_waiting.
    unfold MAX_POLLING_ATTEMPTS. repeat split; try lia.
    intros ev. apply in_waiting.
  - eexists. split; [exact Hs|].
    rewrite !count_app, slept_app, count_get_waiting, count_sleep_waiting, slept_waiting.
    cbn. unfold MAX_POLLING_ATTEMPTS in Hk. repeat split; try lia.
    intros ev [Hin|[<-|[]]]%in_app_or; [now apply in_waiting in Hin | now left].
Qed.






(** ** initiate_runpod_job *)

Section Initiate.
Context {rt : PyRuntime}.
Variable environ : gmap string string.
Variable env : Env.

(** The answer of the service to the submission of [text_data]. *)
Local Abbreviation answer text_data :=
  (http_post env (fmt (RUNPOD_ENDPOINT_URL environ) +:+ "/run")
     [("Authorization", "Bearer " +:+ fmt (RUNPOD_API_KEY environ));
      ("Content-Type", "application/json")]
     (run_payload text_data)).

(** With credentials, the function is the request followed by the check
    of the response. *)
Lemma initiate_unfolded (text_data : string) (h : history) :
  configured environ = true ->
  initiate_runpod_job environ env text_data h
  = match answer text_data with
    | HttpError msg => (inl (Exn RequestException msg), h ++ [submission environ text_data])
    | HttpJson result =>
        bind (py_in "id" result)
          (fun has_id =>
             if negb has_id
             then raise (Exn ValueError
                           ("RunPod API did not return a job ID: " +:+ py_str result))
             else bind (getitem result "id") (fun _ => ret result))
          (h ++ [submission environ text_data])
    end.
Proof.
  unfold configured, initiate_runpod_job. intros Hc.
  apply andb_true_iff in Hc as [-> ->]. cbn [negb orb]. cbv zeta.
  rewrite try_except_reraise.
  unfold requests_post, emit, of_outcome, submission. unfold bind at 1 2.
  destruct (answer text_data); reflexivity.
Qed.

End Initiate.

(** X8: a response to the submission that is an object without an "id"
    makes [initiate_runpod_job] raise a [ValueError] showing the response;
    the request has been sent once and is not repeated. *)
Theorem submission_without_id `{PyRuntime} (environ : gmap string string) (env : Env)
    (text_data : string) (h : history) (fields : list (string * value)) :
  configured environ = true ->
  http_post env (fmt (RUNPOD_ENDPOINT_URL environ) +:+ "/run")
    [("Authorization", "Bearer " +:+ fmt (RUNPOD_API_KEY environ));
     ("Content-Type", "application/json")]
    (run_payload text_data)
  = HttpJson (JObj fields) ->
  lookup_field "id" fields = None ->
  initiate_runpod_job environ env text_data h
  = (inl (Exn ValueError
            ("RunPod API did not return a job ID: " +:+ py_repr (JObj fields))),
     h ++ [submission environ text_data]).
Proof.
  intros Hc Hpost Hid. rewrite initiate_unfolded, Hpost by exact Hc.
  unfold bind. cbn [py_in]. unfold has_field. rewrite Hid. reflexivity.
Qed.

(** X9: a [RequestException] from the submission (connection error,
    timeout, HTTP error status, body that is not JSON) is raised again
    unchanged by [initiate_runpod_job], after that single request. *)
Theorem submission_error_is_reraised `{PyRuntime} (environ : gmap string string)
    (env : Env) (text_data : string) (h : history) (msg : string) :
  configured environ = true ->
  http_post env (fmt (RUNPOD_ENDPOINT_URL environ) +:+ "/run")
    [("Authorization", "Bearer " +:+ fmt (RUNPOD_API_KEY environ));
     ("Content-Type", "application/json")]
    (run_payload text_data)
  = HttpError msg ->
  initiate_runpod_job environ env text_data h
  = (inl (Exn RequestException msg), h ++ [submission environ text_data]).
Proof.
  intros Hc Hpost. now rewrite initiate_unfolded, Hpost by exact Hc.
Qed.

(** X10: whenever [initiate_runpod_job] returns, what it returns is the
    response of the service, and that response is an object with an "id"
    field; so the handler's [run_response["id"]] cannot fail. *)
Theorem initiate_returns_object_with_id `{PyRuntime} (environ : gmap string string)
    (env : Env) (text_data : string) (h h' : history) (result : value) :
  initiate_runpod_job environ env text_data h = (inr result, h') ->
  exists fields job_id,
    result = JObj fields
    /\ lookup_field "id" fields = Some job_id
    /\ getitem result "id" h' = (inr job_id, h')
    /\ http_post env (fmt (RUNPOD_ENDPOINT_URL environ) +:+ "/run")
         [("Authorization", "Bearer " +:+ fmt (RUNPOD_API_KEY environ));
          ("Content-Type", "application/json")]
         (run_payload text_data)
       = HttpJson result
    /\ h' = h ++ [submission environ text_data].
Proof.
  intros Hrun.
  destruct (configured environ) eqn:Hc.
  2:{ rewrite initiate_not_configured in Hrun by exact Hc. discriminate. }
  rewrite initiate_unfolded in Hrun by exact Hc.
  destruct (http_post env _ _ _) as [msg|body]; [discriminate|].
  unfold bind in Hrun.
  destruct body as [| | | |s|items|fields]; cbn [py_in] in Hrun; try discriminate.
  - cbn in Hrun. destruct (str_in "id" s); discriminate.
  - cbn in Hrun. destruct (existsb _ items); discriminate.
  - unfold has_field in Hrun. cbn [getitem] in Hrun.
    destruct (lookup_field "id" fields) as [job_id|] eqn:Hid; cbn in Hrun; [|discriminate].
    injection Hrun as <- <-.
    exists fields, job_id. cbn [getitem]. rewrite Hid. repeat split; reflexivity.
Qed.

(** ** lambda_handler, stage by stage *)

Section Stages.
Context {rt : PyRuntime}.
Variable environ : gmap string string.
Variable env : Env.


Lemma within_budget_pure {A} (c : M A) : pure c -> within_budget c 0 0.
Proof.
  intros Hc h. exists []. rewrite (Hc h), app_nil_r. cbn. repeat split; lia.
Qed.

Lemma within_budget_events {A} (c : M A) (evs : history) :
  (forall h, snd (c h) = h ++ evs) ->
  count is_get evs = O -> slept evs = 0 ->
  within_budget c 0 0.
Proof. intros Hc Hg Hs h. exists evs. rewrite Hc, Hg, Hs. repeat split; lia. Qed.

Lemma within_budget_bind {A B} (c : M A) (k : A -> M B) (g1 g2 : nat) (s1 s2 : Z) :
  within_budget c g1 s1 ->
  (forall a, within_budget (k a) g2 s2) ->
  0 <= s2 ->
  within_budget (bind c k) (g1 + g2) (s1 + s2).
Proof.
  intros Hc Hk Hs h. unfold bind.
  destruct (Hc h) as (e1 & H1 & Hg1 & Hs1).
  destruct (c h) as [[e|a] h1]; cbn in H1; subst h1.
  - exists e1. repeat split; [lia | lia].
  - destruct (Hk a (h ++ e1)) as (e2 & H2 & Hg2 & Hs2).
    exists (e1 ++ e2). rewrite H2, app_assoc, count_app, slept_app.
    repeat split; lia.
Qed.

Lemma within_budget_try_except {A} (c : M A) (catches : exn -> bool)
    (handler : exn -> M A) (g : nat) (s : Z) :
  within_budget c g s ->
  (forall e, within_budget (handler e) 0 0) ->
  within_budget (try_except c catches handler) g s.
Proof.
  intros Hc Hh h. unfold try_except.
  destruct (Hc h) as (e1 & H1 & Hg1 & Hs1).
  destruct (c h) as [[e|a] h1]; cbn in H1; subst h1.
  - destruct (catches e).
    + destruct (Hh e (h ++ e1)) as (e2 & H2 & Hg2 & Hs2).
      exists (e1 ++ e2). rewrite H2, app_assoc, count_app, slept_app.
      repeat split; lia.
    + exists e1. repeat split; assumption.
  - exists e1. repeat split; assumption.
Qed.

Lemma initiate_within_budget (text_data : string) :
  within_budget (initiate_runpod_job environ env text_data) 0 0.
Proof.
  destruct (configured environ) eqn:Hc.
  - apply (within_budget_events _ [submission environ text_data]);
      [intros h; now apply initiate_configured | reflexivity | reflexivity].
  - apply (within_budget_events _ []); [|reflexivity|reflexivity].
    intros h. now rewrite initiate_not_configured, app_nil_r.
Qed.

Lemma within_budget_after {A B} (c : M A) (k : A -> M B) (g : nat) (s : Z) :
  within_budget c 0 0 ->
  (forall a, within_budget (k a) g s) ->
  0 <= s ->
  within_budget (bind c k) g s.
Proof.
  intros Hc Hk Hs. replace s with (0 + s) by lia.
  now apply (within_budget_bind c k 0 g 0 s).
Qed.

Lemma within_budget_before {A B} (c : M A) (k : A -> M B) (g : nat) (s : Z) :
  within_budget c g s ->
  (forall a, within_budget (k a) 0 0) ->
  within_budget (bind c k) g s.
Proof.
  intros Hc Hk. replace s with (s + 0) by lia. replace g with (g + 0)%nat by lia.
  apply (within_budget_bind c k g 0 s 0); [exact Hc | exact Hk | lia].
Qed.

Lemma pipeline_within_budget (event : value) :
  within_budget (pipeline environ env event) MAX_POLLING_ATTEMPTS 300.
Proof.
  unfold pipeline.
  apply within_budget_after; [apply within_budget_pure, pure_parse_event | | lia].
  intros parsed.
  apply within_budget_after; [| | lia].
  { apply (within_budget_events _ [S3Get parsed.1 parsed.2]);
      [intros h; now rewrite retrieve_spec | reflexivity | reflexivity]. }
  intros text_data.
  apply within_budget_after; [apply initiate_within_budget | | lia].
  intros run_response.
  apply within_budget_after; [apply within_budget_pure, pure_getitem | | lia].
  intros job_id.
  apply within_budget_before; [apply poll_job_within_budget|].
  intros summary.
  apply within_budget_after; [apply within_budget_pure, pure_encode_method | | lia].
  intros body.
  apply within_budget_after; [| intros _; apply within_budget_pure, pure_ret | lia].
  eapply within_budget_events; [intros h; apply put_object_history | reflexivity | reflexivity].
Qed.
End Stages.

(** X11: an event without a "Records" entry, or whose "Records" list is
    empty, is turned down before anything is read or sent: the handler
    returns the failure result for the [KeyError], respectively the
    [IndexError], and the history is untouched. *)
Theorem event_without_record_is_rejected `{PyRuntime} (environ : gmap string string)
    (env : Env) (fields : list (string * value)) (context : value) (h : history) :
  lookup_field "Records" fields = None
  \/ lookup_field "Records" fields = Some (JArr []) ->
  lambda_handler environ env (JObj fields) context h
  = (inr (failure_result
            (match lookup_field "Records" fields with
             | None => Exn KeyError (py_repr (JStr "Records"))
             | Some _ => Exn IndexError "list index out of range"
             end)),
     h).
Proof.
  intros Hrec. apply handler_reports.
  - unfold pipeline, parse_event. unfold bind at 1 2. cbn [getitem].
    destruct Hrec as [-> | ->]; reflexivity.
  - destruct Hrec as [-> | ->]; [apply encode_repr | apply encode_ascii; reflexivity].
Qed.





(** X16: whatever the event and whatever the services answer, one
    invocation of the handler makes at most 60 status requests and spends
    at most 300 seconds sleeping. *)
Theorem handler_stays_within_budget `{PyRuntime} (environ : gmap string string)
    (env : Env) (event context : value) (h : history) :
  exists evs,
    snd (lambda_handler environ env event context h) = h ++ evs
    /\ (count is_get evs <= 60)%nat
    /\ slept evs <= 300.
Proof.
  apply (within_budget_try_except (pipeline environ env event) (fun _ => true)
           (fun e => bind (print ("Error in lambda_handler: " +:+ exn_str e))
                       (fun _ => ret (failure_result e)))
           MAX_POLLING_ATTEMPTS 300).
  - apply pipeline_within_budget.
  - intros e. apply within_budget_pure, pure_bind; [apply pure_print|].
    intros _. apply pure_ret.
Qed.

(** ** The output key, in full *)

Lemma has_char_app (c : ascii) (a b : string) :
  has_char c (a +:+ b) = has_char c a || has_char c b.
Proof.
  induction a as [|x a IH]; [reflexivity|].
  rewrite append_cons. cbn [has_char]. now rewrite IH, orb_assoc.
Qed.

Lemma after_last_slash_clean (p : string) : forall pre : string,
  has_char "/" pre = false ->
  has_char "/" (after_last_slash p (pre +:+ p)) = false.
Proof.
  induction p as [|c p IH]; intros pre Hpre.
  - cbn [after_last_slash]. now rewrite append_nil_r.
  - cbn [after_last_slash]. destruct (Ascii.eqb c "/") eqn:Hc.
    + apply (IH EmptyString). reflexivity.
    + replace (pre +:+ String c p) with ((pre +:+ String c EmptyString) +:+ p)
        by now rewrite append_assoc.
      apply IH. rewrite has_char_app, Hpre. cbn [has_char orb].
      now rewrite Ascii.eqb_sym, Hc.
Qed.

(** A basename holds no slash. *)
Lemma basename_clean (p : string) : has_char "/" (basename p) = false.
Proof. apply (after_last_slash_clean p EmptyString). reflexivity. Qed.

(** Replacing brings in no character that neither text has. *)
Lemma replace_from_clean (c : ascii) (old new : string) (s : string) :
  has_char c new = false ->
  forall skip, has_char c s = false -> has_char c (replace_from old new skip s) = false.
Proof.
  intros Hnew. induction s as [|x s IH]; intros skip Hs; [reflexivity|].
  cbn [has_char] in Hs. apply orb_false_iff in Hs as [Hx Hs].
  cbn [replace_from]. destruct skip as [|skip]; [|now apply IH].
  destruct (starts_with old (String x s)).
  - rewrite has_char_app, Hnew. now apply IH.
  - cbn [has_char]. rewrite Hx. now apply IH.
Qed.

(** Where the old text does not occur, nothing is replaced. *)
Lemma replace_from_absent (old new s : string) :
  str_in old s = false -> replace_from old new O s = s.
Proof.
  induction s as [|x s IH]; [reflexivity|].
  cbn [str_in]. intros [Hst Hin]%orb_false_iff.
  cbn [replace_from]. rewrite Hst. now rewrite IH.
Qed.

(** X17: the output key keeps nothing of the folder of the input key:
    it is OUTPUT_PREFIX followed by a name without any slash. *)
Theorem output_key_is_flat (environ : gmap string string) (key : string) :
  exists name,
    output_key_of environ key = OUTPUT_PREFIX environ +:+ name
    /\ has_char "/" name = false.
Proof.
  exists (replace ".txt" "_summary.txt" (basename key)). split; [reflexivity|].
  apply replace_from_clean; [reflexivity | apply basename_clean].
Qed.

(** X18: for an object [stem.txt] in any folder, [stem] holding neither
    slash nor dot, the summary is stored under OUTPUT_PREFIX followed by
    [stem_summary.txt]. *)
Theorem output_key_of_txt_file (environ : gmap string string) (dir stem : string) :
  has_char "/" stem = false ->
  has_char "." stem = false ->
  output_key_of environ (dir +:+ String "/" (stem +:+ ".txt"))
  = OUTPUT_PREFIX environ +:+ stem +:+ "_summary.txt".
Proof.
  intros Hslash Hdot. unfold output_key_of.
  rewrite basename_of_path by (rewrite has_char_app, Hslash; reflexivity).
  now rewrite replace_txt_suffix.
Qed.

(** X19: a key whose basename does not contain [.txt] (another
    extension, or [.TXT]) keeps its basename: the summary is stored under
    OUTPUT_PREFIX followed by the basename unchanged. *)
Theorem output_key_without_txt (environ : gmap string string) (key : string) :
  str_in ".txt" (basename key) = false ->
  output_key_of environ key = OUTPUT_PREFIX environ +:+ basename key.
Proof.
  intros Habsent. unfold output_key_of, replace. now rewrite replace_from_absent.
Qed.

(** X20: objects with the same file name in different folders get the
    same output key, so their summaries land on the same object. *)
Theorem same_name_same_output_key (environ : gmap string string)
    (dir1 dir2 name : string) :
  has_char "/" name = false ->
  output_key_of environ (dir1 +:+ String "/" name)
  = output_key_of environ (dir2 +:+ String "/" name).
Proof.
  intros Hname. unfold output_key_of. now rewrite !basename_of_path.
Qed.

(** ** Runs in other worlds *)






Lemma submission_without_id_witness :
  @initiate_runpod_job ascii_runtime demo_environ
    (world notes None (HttpJson (JObj [("status", JStr "IN_QUEUE")])) demo_polls)
    "meeting notes" []
  = (inl (Exn ValueError "RunPod API did not return a job ID: {'status': 'IN_QUEUE'}"),
     [] ++ [submission demo_environ "meeting notes"]).
Proof.
  apply (@submission_without_id ascii_runtime demo_environ _ "meeting notes" []
           [("status", JStr "IN_QUEUE")]); reflexivity.
Defined.

Lemma submission_error_is_reraised_witness :
  @initiate_runpod_job ascii_runtime demo_environ
    (world notes None (HttpError "401 Client Error: Unauthorized") demo_polls)
    "meeting notes" []
  = (inl (Exn RequestException "401 Client Error: Unauthorized"),
     [] ++ [submission demo_environ "meeting notes"]).
Proof.
  apply (@submission_error_is_reraised ascii_runtime demo_environ _ "meeting notes" []
           "401 Client Error: Unauthorized"); reflexivity.
Defined.

Lemma initiate_returns_object_with_id_witness :
  exists fields job_id,
    JObj [("id", JStr "job-1")] = JObj fields
    /\ lookup_field "id" fields = Some job_id
    /\ @getitem ascii_runtime (JObj [("id", JStr "job-1")]) "id"
         [submission demo_environ "meeting notes"]
       = (inr job_id, [submission demo_environ "meeting notes"])
    /\ http_post (@demo_env ascii_runtime demo_polls)
         (fmt (RUNPOD_ENDPOINT_URL demo_environ) +:+ "/run")
         [("Authorization", "Bearer " +:+ fmt (RUNPOD_API_KEY demo_environ));
          ("Content-Type", "application/json")]
         (run_payload "meeting notes")
       = HttpJson (JObj [("id", JStr "job-1")])
    /\ [submission demo_environ "meeting notes"] = [] ++ [submission demo_environ "meeting notes"].
Proof.
  apply (@initiate_returns_object_with_id ascii_runtime demo_environ (demo_env demo_polls)
           "meeting notes" [] [submission demo_environ "meeting notes"]
           (JObj [("id", JStr "job-1")])).
  reflexivity.
Defined.

Lemma event_without_record_is_rejected_witness :
  @lambda_handler ascii_runtime demo_environ (demo_env demo_polls)
    (JObj [("Records", JArr [])]) JNull []
  = (inr (@failure_result ascii_runtime (Exn IndexError "list index out of range")), []).
Proof.
  apply (@event_without_record_is_rejected ascii_runtime demo_environ (demo_env demo_polls)
           [("Records", JArr [])] JNull []).
  right. reflexivity.
Defined.





Lemma output_key_of_txt_file_witness :
  output_key_of demo_environ ("calls/2024" +:+ String "/" ("call 1" +:+ ".txt"))
  = OUTPUT_PREFIX demo_environ +:+ "call 1" +:+ "_summary.txt".
Proof.
  apply (output_key_of_txt_file demo_environ "calls/2024" "call 1"); reflexivity.
Defined.

Lemma output_key_without_txt_witness :
  output_key_of demo_environ "calls/NOTES.TXT" = OUTPUT_PREFIX demo_environ +:+ basename "calls/NOTES.TXT".
Proof.
  apply (output_key_without_txt demo_environ "calls/NOTES.TXT"). reflexivity.
Defined.

Lemma same_name_same_output_key_witness :
  output_key_of demo_environ ("monday" +:+ String "/" "call.txt")
  = output_key_of demo_environ ("tuesday" +:+ String "/" "call.txt").
Proof.
  apply (same_name_same_output_key demo_environ "monday" "tuesday" "call.txt"). reflexivity.
Defined.




(** X22: whenever the body of the handler raises an exception whose text
    can be encoded, [lambda_handler] does not raise: it returns the
    dictionary with statusCode 500 whose body is the JSON object holding
    that text under "error", and makes no further call. *)
Theorem handler_reports_exception `{PyRuntime} (environ : gmap string string) (env : Env)
    (event context : value) (h h' : history) (e : exn) :
  pipeline environ env event h = (inl e, h') ->
  succeeds (utf8_encode (exn_str e)) = true ->
  lambda_handler environ env event context h
  = (inr (JObj [("statusCode", JInt 500);
                ("body", JStr (json_dumps (JObj [("error", JStr (exn_str e))])))]),
     h').
Proof. intros Hp He. now apply handler_reports. Qed.

Lemma handler_reports_exception_witness :
  @lambda_handler ascii_runtime demo_environ (demo_env failing_polls) demo_event JNull []
  = (inr (JObj [("statusCode", JInt 500);
                ("body",
                 JStr (ascii_json_dumps (JObj
                   [("error",
                     JStr "RunPod job failed with status: FAILED, error: CUDA out of memory")])))]),
     demo_submitted ++ waiting demo_endpoint demo_poll_headers 2
       ++ [HttpGet demo_endpoint demo_poll_headers 10]).
Proof.
  apply (@handler_reports_exception ascii_runtime demo_environ (demo_env failing_polls)
           demo_event JNull []
           (demo_submitted ++ waiting demo_endpoint demo_poll_headers 2
              ++ [HttpGet demo_endpoint demo_poll_headers 10])
           (Exn ValueError "RunPod job failed with status: FAILED, error: CUDA out of memory"));
    reflexivity.
Defined.

(** ** A poll that gets no object *)

